(** * GNS3 compute API: Dynamips router and Ethernet hub endpoints

    A shallow embedding of [gns3server/endpoints/compute/dynamips_nodes.py]
    and [gns3server/endpoints/compute/ethernet_hub_nodes.py].

    The endpoints are thin asynchronous handlers: they read the request,
    call methods of the Dynamips manager, of the node object and of the NIO
    object, and return a JSON document.  They are embedded as programs of a
    state-and-exception monad.  Every method call on a manager, node, project
    or NIO object is an explicit [call]; its meaning is given by a [Backend],
    and the monad records each call, with its arguments, in a log. *)

From Stdlib Require Import ZArith String Ascii List.
From stdpp Require Import base option gmap strings list fin_maps.

Set Warnings "-register-all".

Local Open Scope string_scope.
Local Open Scope Z_scope.
Local Open Scope list_scope.

(** ** Python values *)

Module Py.

(** The JSON-compatible values that travel through the endpoints. *)
Inductive value :=
| VNone
| VBool (b : bool)
| VInt (n : Z)
| VStr (s : string)
| VList (l : list value)
| VDict (d : list (string * value)).

(** Python truthiness, as used by [if x:] and [not x]. *)
Definition truthy (v : value) : bool :=
  match v with
  | VNone => false
  | VBool b => b
  | VInt n => negb (n =? 0)
  | VStr s => match s with EmptyString => false | _ => true end
  | VList l => match l with [] => false | _ => true end
  | VDict d => match d with [] => false | _ => true end
  end.

(** A pydantic model instance is represented by the dictionary of the fields
    that the request has set; this is also what
    [jsonable_encoder(model, exclude_unset=True)] returns. *)
Abbreviation dict := (gmap string value).

(** Attribute access on a model: an optional field that is unset reads as
    its default, [None]. *)
Definition attr (d : dict) (k : string) : value := default VNone (d !! k).

(** [d.get(k)] and [d.get(k, dflt)]. *)
Definition get (d : dict) (k : string) : value := default VNone (d !! k).
Definition get_default (d : dict) (k : string) (dflt : value) : value :=
  default dflt (d !! k).

(** Exceptions.  [GeneratorExit], [UnicodeEncodeError] and [KeyError] are
    Python's, [DynamipsError] is the one the endpoints raise; the others are
    the error taxonomy of the node engine. *)
Inductive exn :=
| GeneratorExit
| UnicodeEncodeError
| KeyError (key : string)
| DynamipsError (msg : string)
| ValidationError
| NotFoundError
| ConflictError
| SlotOccupiedError
| OutOfRangeError
| InvalidStateError
| UnsupportedOperationError
| NoNioError
| AlreadyCapturingError
| NotCapturingError
| NoCandidateError
| BackendError (msg : string).

Inductive result (A : Type) :=
| Ok (a : A)
| Raise (e : exn).
Arguments Ok {A} a.
Arguments Raise {A} e.

(** [s.startswith(p)] *)
Fixpoint startswith (p s : string) : bool :=
  match p, s with
  | EmptyString, _ => true
  | String a p', String b s' => if Ascii.eqb a b then startswith p' s' else false
  | String _ _, EmptyString => false
  end.

(** A [str] is represented by its UTF-8 bytes: a code point beyond 127 shows
    as bytes beyond 127, so [s.encode('ascii')] succeeds exactly when every
    byte is below 128. *)
Fixpoint is_ascii (s : string) : bool :=
  match s with
  | EmptyString => true
  | String c s' => (nat_of_ascii c <? 128)%nat && is_ascii s'
  end.

Definition encode_ascii (s : string) : result string :=
  if is_ascii s then Ok s else Raise UnicodeEncodeError.

End Py.
Export Py.

(** ** Calls into the compute layer *)

(** A node object is identified by its id within the manager ([node.id]), a
    NIO object by its identity. *)
Abbreviation node_ref := string (only parsing).
Abbreviation nio_ref := positive (only parsing).

(** The methods of [Dynamips.instance()], of [Router] and [EthernetHub]
    nodes, of a node's project and of NIO objects that the endpoints call,
    indexed by the type of what they return. *)
Inductive call : Type -> Type :=
(* Dynamips.instance() *)
| Dynamips_get_node (node_id project_id : string) : call node_ref
| Dynamips_create_node (name : value) (project_id : string) (node_id : value)
    (kwargs : dict) : call node_ref
| Dynamips_update_vm_settings (vm : node_ref) (settings : dict) : call unit
| Dynamips_delete_node (node_id : string) : call unit
| Dynamips_ghost_ios_support (node : node_ref) : call unit
| Dynamips_create_nio (node : node_ref) (nio_settings : dict) : call nio_ref
| Dynamips_stream_pcap_file (nio : nio_ref) (project_id : string) : call string
| Dynamips_auto_idlepc (node : node_ref) : call value
| Dynamips_duplicate_node (source_node_id destination_node_id : string) : call node_ref
(* Router and EthernetHub, common part *)
| Node_json (node : node_ref) : call value
| Node_updated (node : node_ref) : call unit
| Node_project_id (node : node_ref) : call string
| Project_capture_working_directory (node : node_ref) : call string
(* Router *)
| Router_start (node : node_ref) : call unit
| Router_stop (node : node_ref) : call unit
| Router_suspend (node : node_ref) : call unit
| Router_resume (node : node_ref) : call unit
| Router_reload (node : node_ref) : call unit
| Router_slot_add_nio_binding (node : node_ref) (adapter_number port_number : Z)
    (nio : nio_ref) : call unit
| Router_slot_update_nio_binding (node : node_ref) (adapter_number port_number : Z)
    (nio : nio_ref) : call unit
| Router_slot_remove_nio_binding (node : node_ref) (adapter_number port_number : Z)
    : call nio_ref
| Router_get_nio (node : node_ref) (adapter_number port_number : Z) : call nio_ref
| Router_start_capture (node : node_ref) (adapter_number port_number : Z)
    (pcap_file_path : string) (data_link_type : value) : call unit
| Router_stop_capture (node : node_ref) (adapter_number port_number : Z) : call unit
| Router_set_idlepc (node : node_ref) (idlepc : string) : call unit
| Router_get_idle_pc_prop (node : node_ref) : call (list string)
| Router_reset_console (node : node_ref) : call unit
(* EthernetHub *)
| EthernetHub_add_nio (node : node_ref) (nio : nio_ref) (port_number : Z) : call unit
| EthernetHub_remove_nio (node : node_ref) (port_number : Z) : call nio_ref
| EthernetHub_get_nio (node : node_ref) (port_number : Z) : call nio_ref
| EthernetHub_start_capture (node : node_ref) (port_number : Z)
    (pcap_file_path : string) (data_link_type : value) : call unit
| EthernetHub_stop_capture (node : node_ref) (port_number : Z) : call unit
(* NIO *)
| NIO_json (nio : nio_ref) : call value
| NIO_set_filters (nio : nio_ref) (filters : value) : call unit
| NIO_delete (nio : nio_ref) : call unit.

(** A logged call, whatever its return type. *)
Inductive event :=
| Called {X : Type} (c : call X).

(** A backend gives every call its outcome on the backend's own state: a
    value or an exception, and the state it leaves. *)
Record Backend := {
  bstate : Type;
  handle : forall X : Type, call X -> bstate -> result X * bstate
}.
Arguments handle _ {X} c s.

(** ** The handler monad *)

Section Monad.
Context {B : Backend}.

(** What an endpoint runs in: the log of the calls made so far and the
    backend's state. *)
Record world := World {
  calls : list event;
  backend : bstate B
}.

Definition M (A : Type) : Type := world -> result A * world.

Definition ret {A} (a : A) : M A := fun w => (Ok a, w).

Definition raise {A} (e : exn) : M A := fun w => (Raise e, w).

Definition bind {A C} (m : M A) (k : A -> M C) : M C :=
  fun w =>
    match m w with
    | (Ok a, w') => k a w'
    | (Raise e, w') => (Raise e, w')
    end.

(** [try: body except <those e with h e = Some k>: k] *)
Definition try_except {A} (body : M A) (h : exn -> option (M A)) : M A :=
  fun w =>
    match body w with
    | (Ok a, w') => (Ok a, w')
    | (Raise e, w') =>
        match h e with
        | Some k => k w'
        | None => (Raise e, w')
        end
    end.

(** A method call: logged, then answered by the backend. *)
Definition perform {X} (c : call X) : M X :=
  fun w =>
    let (r, s) := handle B c (backend w) in
    (r, World (calls w ++ [Called c]) s).

Definition lift_result {A} (r : result A) : M A := fun w => (r, w).

End Monad.
Arguments world B : clear implicits.
Arguments M B A : clear implicits.

Notation "x <- c1 ;; c2" := (bind c1 (fun x => c2))
  (at level 100, c1 at next level, right associativity).
Notation "c1 ;; c2" := (bind c1 (fun _ => c2))
  (at level 100, right associativity).

(** [d.pop(k)] raises [KeyError] when the key is missing; [d.pop(k, dflt)]
    does not.  Both return the value and the dictionary without the key. *)
Definition pop (d : dict) (k : string) : result (value * dict) :=
  match d !! k with
  | Some v => Ok (v, delete k d)
  | None => Raise (KeyError k)
  end.

Definition pop_default (d : dict) (k : string) (dflt : value) : value * dict :=
  (default dflt (d !! k), delete k d).

(** ** Routes *)

(** What a route does, for both files. *)
Inductive operation :=
| OpCreate | OpGet | OpUpdate | OpDelete
| OpStart | OpStop | OpSuspend | OpResume | OpReload
| OpCreateNio | OpUpdateNio | OpDeleteNio
| OpStartCapture | OpStopCapture | OpStreamPcap
| OpIdlepcProposals | OpAutoIdlepc
| OpDuplicate | OpConsoleReset.

Inductive http_method := GET | POST | PUT | DELETE.

(** The arguments of a route decorator.  [status_code] is the status of a
    successful response (200 when the decorator gives none); [responses] are
    the error statuses the route declares, with their descriptions;
    [uses_dep_node] tells whether the handler takes its node from
    [Depends(dep_node)]. *)
Record route := Route {
  op : operation;
  method : http_method;
  path : string;
  status_code : Z;
  responses : list (Z * string);
  uses_dep_node : bool
}.

Definition HTTP_200_OK : Z := 200.
Definition HTTP_201_CREATED : Z := 201.
Definition HTTP_204_NO_CONTENT : Z := 204.

(** The status a response carries: the route's [status_code] when the
    handler returns; when it raises, the application's exception handlers
    choose, and they are not part of these files. *)
Definition response_status {A} (r : route) (res : result A) : option Z :=
  match res with
  | Ok _ => Some (status_code r)
  | Raise _ => None
  end.

(** ** Request bodies *)

(** [schemas.DynamipsCreate]: [name] and [platform] are required; the
    optional fields that the request sets ([chassis], [node_id], [console],
    ...) are in [dc_optional]. *)
Record DynamipsCreate := {
  dc_name : string;
  dc_platform : string;
  dc_optional : dict
}.

(** [schemas.EthernetHubCreate]: [name] is required. *)
Record EthernetHubCreate := {
  ehc_name : string;
  ehc_optional : dict
}.

(** [schemas.NodeCapture] *)
Record NodeCapture := {
  capture_file_name : string;
  data_link_type : value
}.

(** [jsonable_encoder(node_data, exclude_unset=True)] *)
Definition encode_DynamipsCreate (d : DynamipsCreate) : dict :=
  <["name" := VStr (dc_name d)]>
    (<["platform" := VStr (dc_platform d)]> (dc_optional d)).

Definition encode_EthernetHubCreate (d : EthernetHubCreate) : dict :=
  <["name" := VStr (ehc_name d)]> (ehc_optional d).

(** [StreamingResponse(stream, media_type=...)] *)
Record StreamingResponse := {
  stream : string;
  media_type : string
}.

(** What the endpoints take from the Python runtime. *)
Record Runtime := {
  sys_platform : string;
  os_path_join : string -> string -> string
}.

(** The double quote character, for messages. *)
Definition dquote : string := String "034"%char EmptyString.

(** ** dynamips_nodes.py *)

Module DynamipsNodes.

Definition responses : list (Z * string) :=
  [(404, "Could not find project or Dynamips node")].

Definition DEFAULT_CHASSIS : gmap string string :=
  <["c1700" := "1720"]> (<["c2600" := "2610"]> (<["c3600" := "3640"]> ∅)).

(** The [chassis] keyword that [create_router] hands to [create_node]. *)
Definition default_chassis (node_data : DynamipsCreate) : value :=
  let platform := dc_platform node_data in
  if negb (truthy (attr (dc_optional node_data) "chassis"))
  then match DEFAULT_CHASSIS !! platform with
       | Some chassis => VStr chassis
       | None => VNone
       end
  else VNone.

Section Endpoints.
Context {B : Backend} (R : Runtime).

Definition dep_node (project_id node_id : string) : M B node_ref :=
  perform (Dynamips_get_node node_id project_id).

Definition create_router (project_id : string) (node_data : DynamipsCreate)
  : M B value :=
  let platform := dc_platform node_data in
  let chassis := default_chassis node_data in
  let node_data := encode_DynamipsCreate node_data in
  name_rest <- lift_result (pop node_data "name") ;;
  let name := fst name_rest in
  let node_data := snd name_rest in
  let node_id := get node_data "node_id" in
  let dynamips_id := get node_data "dynamips_id" in
  let console := get node_data "console" in
  let console_type := get_default node_data "console_type" (VStr "telnet") in
  let aux := get node_data "aux" in
  let aux_type := fst (pop_default node_data "aux_type" (VStr "none")) in
  let node_data := snd (pop_default node_data "aux_type" (VStr "none")) in
  vm <- perform (Dynamips_create_node name project_id node_id
          (<["dynamips_id" := dynamips_id]>
          (<["platform" := VStr platform]>
          (<["console" := console]>
          (<["console_type" := console_type]>
          (<["aux" := aux]>
          (<["aux_type" := aux_type]>
          (<["chassis" := chassis]>
          (<["node_type" := VStr "dynamips"]> ∅))))))))) ;;
  perform (Dynamips_update_vm_settings vm node_data) ;;
  perform (Node_json vm).

Definition get_router (node : node_ref) : M B value :=
  perform (Node_json node).

Definition update_router (node_data : dict) (node : node_ref) : M B value :=
  perform (Dynamips_update_vm_settings node node_data) ;;
  perform (Node_updated node) ;;
  perform (Node_json node).


Definition start_router (node : node_ref) : M B unit :=
  try_except (perform (Dynamips_ghost_ios_support node))
    (fun e => match e with
              | GeneratorExit => Some (ret tt)
              | _ => None
              end) ;;
  perform (Router_start node).

Definition stop_router (node : node_ref) : M B unit :=
  perform (Router_stop node).

Definition suspend_router (node : node_ref) : M B unit :=
  perform (Router_suspend node).

Definition resume_router (node : node_ref) : M B unit :=
  perform (Router_resume node).

Definition reload_router (node : node_ref) : M B unit :=
  perform (Router_reload node).

Definition create_nio (adapter_number port_number : Z) (nio_data : dict)
    (node : node_ref) : M B value :=
  nio <- perform (Dynamips_create_nio node nio_data) ;;
  perform (Router_slot_add_nio_binding node adapter_number port_number nio) ;;
  perform (NIO_json nio).

Definition update_nio (adapter_number port_number : Z) (nio_data : dict)
    (node : node_ref) : M B value :=
  nio <- perform (Router_get_nio node adapter_number port_number) ;;
  (if truthy (attr nio_data "filters")
   then perform (NIO_set_filters nio (attr nio_data "filters"))
   else ret tt) ;;
  perform (Router_slot_update_nio_binding node adapter_number port_number nio) ;;
  perform (NIO_json nio).

Definition delete_nio (adapter_number port_number : Z) (node : node_ref)
  : M B unit :=
  nio <- perform (Router_slot_remove_nio_binding node adapter_number port_number) ;;
  perform (NIO_delete nio).

Definition capture_path_error (pcap_file_path : string) : exn :=
  DynamipsError ("The capture file path " +:+ dquote +:+ pcap_file_path +:+ dquote
                 +:+ " must only contain ASCII (English) characters").

Definition start_capture (adapter_number port_number : Z)
    (node_capture_data : NodeCapture) (node : node_ref) : M B value :=
  directory <- perform (Project_capture_working_directory node) ;;
  let pcap_file_path :=
    os_path_join R directory (capture_file_name node_capture_data) in
  (if startswith "win" (sys_platform R)
   then try_except (lift_result (encode_ascii pcap_file_path) ;; ret tt)
          (fun e => match e with
                    | UnicodeEncodeError => Some (raise (capture_path_error pcap_file_path))
                    | _ => None
                    end)
   else ret tt) ;;
  perform (Router_start_capture node adapter_number port_number pcap_file_path
             (data_link_type node_capture_data)) ;;
  ret (VDict [("pcap_file_path", VStr pcap_file_path)]).

Definition stop_capture (adapter_number port_number : Z) (node : node_ref)
  : M B unit :=
  perform (Router_stop_capture node adapter_number port_number).

Definition stream_pcap_file (adapter_number port_number : Z) (node : node_ref)
  : M B StreamingResponse :=
  nio <- perform (Router_get_nio node adapter_number port_number) ;;
  project_id <- perform (Node_project_id node) ;;
  stream <- perform (Dynamips_stream_pcap_file nio project_id) ;;
  ret {| stream := stream; media_type := "application/vnd.tcpdump.pcap" |}.

Definition get_idlepcs (node : node_ref) : M B (list string) :=
  perform (Router_set_idlepc node "0x0") ;;
  perform (Router_get_idle_pc_prop node).

Definition get_auto_idlepc (node : node_ref) : M B value :=
  idlepc <- perform (Dynamips_auto_idlepc node) ;;
  ret (VDict [("idlepc", idlepc)]).

Definition duplicate_router (destination_node_id : string) (node : node_ref)
  : M B value :=
  new_node <- perform (Dynamips_duplicate_node node destination_node_id) ;;
  perform (Node_json new_node).

Definition reset_console (node : node_ref) : M B unit :=
  perform (Router_reset_console node).

End Endpoints.

(** The arguments of the two manager calls of [create_router], written out:
    the request without its name, the [node_id] and the keywords of
    [create_node], and the settings of [update_vm_settings]. *)
Definition create_router_fields (node_data : DynamipsCreate) : dict :=
  delete "name" (encode_DynamipsCreate node_data).

Definition create_router_node_id (node_data : DynamipsCreate) : value :=
  get (create_router_fields node_data) "node_id".

Definition create_router_kwargs (node_data : DynamipsCreate) : dict :=
  let fields := create_router_fields node_data in
  <["dynamips_id" := get fields "dynamips_id"]>
  (<["platform" := VStr (dc_platform node_data)]>
  (<["console" := get fields "console"]>
  (<["console_type" := get_default fields "console_type" (VStr "telnet")]>
  (<["aux" := get fields "aux"]>
  (<["aux_type" := get_default fields "aux_type" (VStr "none")]>
  (<["chassis" := default_chassis node_data]>
  (<["node_type" := VStr "dynamips"]> ∅))))))).

Definition create_router_settings (node_data : DynamipsCreate) : dict :=
  delete "aux_type" (create_router_fields node_data).

(** The route decorators, in the order of the file. *)
Definition node_path (suffix : string) : string := "/{node_id}" +:+ suffix.
Definition slot_path (suffix : string) : string :=
  node_path ("/adapters/{adapter_number}/ports/{port_number}" +:+ suffix).

Definition routes : list route :=
  [ Route OpCreate POST EmptyString HTTP_201_CREATED
      [(409, "Could not create Dynamips node")] false;
    Route OpGet GET (node_path EmptyString) HTTP_200_OK responses true;
    Route OpUpdate PUT (node_path EmptyString) HTTP_200_OK responses true;
    Route OpDelete DELETE (node_path EmptyString) HTTP_204_NO_CONTENT responses true;
    Route OpStart POST (node_path "/start") HTTP_204_NO_CONTENT responses true;
    Route OpStop POST (node_path "/stop") HTTP_204_NO_CONTENT responses true;
    Route OpSuspend POST (node_path "/suspend") HTTP_204_NO_CONTENT responses true;
    Route OpResume POST (node_path "/resume") HTTP_204_NO_CONTENT responses true;
    Route OpReload POST (node_path "/reload") HTTP_204_NO_CONTENT responses true;
    Route OpCreateNio POST (slot_path "/nio") HTTP_201_CREATED responses true;
    Route OpUpdateNio PUT (slot_path "/nio") HTTP_201_CREATED responses true;
    Route OpDeleteNio DELETE (slot_path "/nio") HTTP_204_NO_CONTENT responses true;
    Route OpStartCapture POST (slot_path "/start_capture") HTTP_200_OK responses true;
    Route OpStopCapture POST (slot_path "/stop_capture") HTTP_204_NO_CONTENT responses true;
    Route OpStreamPcap GET (slot_path "/pcap") HTTP_200_OK responses true;
    Route OpIdlepcProposals GET (node_path "/idlepc_proposals") HTTP_200_OK responses true;
    Route OpAutoIdlepc GET (node_path "/auto_idlepc") HTTP_200_OK responses true;
    Route OpDuplicate POST (node_path "/duplicate") HTTP_201_CREATED responses true;
    Route OpConsoleReset POST (node_path "/console/reset") HTTP_204_NO_CONTENT responses true ].

End DynamipsNodes.

(** ** ethernet_hub_nodes.py *)

Module EthernetHubNodes.

Definition responses : list (Z * string) :=
  [(404, "Could not find project or Ethernet hub node")].

Section Endpoints.
Context {B : Backend} (R : Runtime).

Definition dep_node (project_id node_id : string) : M B node_ref :=
  perform (Dynamips_get_node node_id project_id).

Definition create_ethernet_hub (project_id : string) (node_data : EthernetHubCreate)
  : M B value :=
  let node_data := encode_EthernetHubCreate node_data in
  name_rest <- lift_result (pop node_data "name") ;;
  let name := fst name_rest in
  let node_data := snd name_rest in
  node <- perform (Dynamips_create_node name project_id (get node_data "node_id")
            (<["node_type" := VStr "ethernet_hub"]>
            (<["ports" := get node_data "ports_mapping"]> ∅))) ;;
  perform (Node_json node).

Definition get_ethernet_hub (node : node_ref) : M B value :=
  perform (Node_json node).

Definition duplicate_ethernet_hub (destination_node_id : string) (node : node_ref)
  : M B value :=
  new_node <- perform (Dynamips_duplicate_node node destination_node_id) ;;
  perform (Node_json new_node).


(** [pass]: Ethernet hub nodes are always on. *)
Definition start_ethernet_hub (node : node_ref) : M B unit := ret tt.

Definition stop_ethernet_hub (node : node_ref) : M B unit := ret tt.

Definition suspend_ethernet_hub (node : node_ref) : M B unit := ret tt.

Definition create_nio (adapter_number port_number : Z) (nio_data : dict)
    (node : node_ref) : M B value :=
  nio <- perform (Dynamips_create_nio node nio_data) ;;
  perform (EthernetHub_add_nio node nio port_number) ;;
  perform (NIO_json nio).

Definition delete_nio (adapter_number port_number : Z) (node : node_ref)
  : M B unit :=
  nio <- perform (EthernetHub_remove_nio node port_number) ;;
  perform (NIO_delete nio).

Definition start_capture (adapter_number port_number : Z)
    (node_capture_data : NodeCapture) (node : node_ref) : M B value :=
  directory <- perform (Project_capture_working_directory node) ;;
  let pcap_file_path :=
    os_path_join R directory (capture_file_name node_capture_data) in
  perform (EthernetHub_start_capture node port_number pcap_file_path
             (data_link_type node_capture_data)) ;;
  ret (VDict [("pcap_file_path", VStr pcap_file_path)]).

Definition stop_capture (adapter_number port_number : Z) (node : node_ref)
  : M B unit :=
  perform (EthernetHub_stop_capture node port_number).

Definition stream_pcap_file (adapter_number port_number : Z) (node : node_ref)
  : M B StreamingResponse :=
  nio <- perform (EthernetHub_get_nio node port_number) ;;
  project_id <- perform (Node_project_id node) ;;
  stream <- perform (Dynamips_stream_pcap_file nio project_id) ;;
  ret {| stream := stream; media_type := "application/vnd.tcpdump.pcap" |}.

End Endpoints.

Definition node_path (suffix : string) : string := "/{node_id}" +:+ suffix.
Definition slot_path (suffix : string) : string :=
  node_path ("/adapters/{adapter_number}/ports/{port_number}" +:+ suffix).

Definition routes : list route :=
  [ Route OpCreate POST EmptyString HTTP_201_CREATED
      [(409, "Could not create Ethernet hub node")] false;
    Route OpGet GET (node_path EmptyString) HTTP_200_OK responses true;
    Route OpDuplicate POST (node_path "/duplicate") HTTP_201_CREATED responses true;
    Route OpUpdate PUT (node_path EmptyString) HTTP_200_OK responses true;
    Route OpDelete DELETE (node_path EmptyString) HTTP_204_NO_CONTENT responses true;
    Route OpStart POST (node_path "/start") HTTP_204_NO_CONTENT responses true;
    Route OpStop POST (node_path "/stop") HTTP_204_NO_CONTENT responses true;
    Route OpSuspend POST (node_path "/suspend") HTTP_204_NO_CONTENT responses true;
    Route OpCreateNio POST (slot_path "/nio") HTTP_201_CREATED responses true;
    Route OpDeleteNio DELETE (slot_path "/nio") HTTP_204_NO_CONTENT responses true;
    Route OpStartCapture POST (slot_path "/capture/start") HTTP_200_OK responses true;
    Route OpStopCapture POST (slot_path "/capture/stop") HTTP_204_NO_CONTENT responses true;
    Route OpStreamPcap GET (slot_path "/capture/stream") HTTP_200_OK responses true ].

End EthernetHubNodes.

(** ** The node engine *)

(** The classes behind the calls ([Dynamips], [Router], [EthernetHub], the
    NIO classes, the project) are in [gns3server/compute], not in the two
    endpoint files.  The [Engine] module is a backend written after the
    specification of the node lifecycle and port/NIO binding engine. *)

Module Engine.

(** Modelled from the spec: the operational states of a node (the [Router]
    and [EthernetHub] classes are missing). *)
Inductive state := DEFINED | RUNNING | SUSPENDED.

(** Modelled from the spec: the backend kinds the two endpoint files create
    ([node_type] "dynamips" and "ethernet_hub"). *)
Inductive kind := KRouter | KHub.

(** Modelled from the spec: a NIO, a UDP tunnel with optional packet filters
    (the NIO classes are missing). *)
Record nio := Nio {
  lport : Z;
  rhost : string;
  rport : Z;
  filters : value
}.

(** Modelled from the spec: a node: its kind, operational state, table of
    slot bindings and settings; [node_adapters] and [node_ports] are the
    cardinality its kind declares (the node classes are missing). *)
Record node := Node {
  node_name : string;
  node_project : string;
  node_kind : kind;
  node_state : state;
  node_adapters : Z;
  node_ports : Z;
  node_slots : gmap (Z * Z) positive;
  node_settings : dict
}.

(** Modelled from the spec: what the engine takes from outside: the outcome
    of the driver's preparation and start (an exception, or none), the
    candidates the idle-PC sampling finds, the candidates the backend
    accepts, the capture directory, the contents of capture files and the
    cardinality of each kind. *)
Record environment := Environment {
  ghost_ios_failure : option exn;
  driver_start_failure : option exn;
  idle_pc_samples : list string;
  idle_pc_valid : string -> bool;
  capture_directory : string;
  capture_files : gmap string string;
  cardinality : kind -> Z * Z
}.

(** Modelled from the spec: the engine's state: the nodes by id, the NIO
    registry, the capture sessions by NIO (output file and link type) and
    the environment (the [Dynamips] manager class is missing). *)
Record engine := Engine {
  nodes : gmap string node;
  nios : gmap positive nio;
  captures : gmap positive (string * value);
  env : environment
}.

Definition set_nodes (f : gmap string node -> gmap string node) (e : engine) : engine :=
  Engine (f (nodes e)) (nios e) (captures e) (env e).

Definition set_nios (f : gmap positive nio -> gmap positive nio) (e : engine) : engine :=
  Engine (nodes e) (f (nios e)) (captures e) (env e).

Definition set_captures
    (f : gmap positive (string * value) -> gmap positive (string * value))
    (e : engine) : engine :=
  Engine (nodes e) (nios e) (f (captures e)) (env e).

Definition with_state (s : state) (n : node) : node :=
  Node (node_name n) (node_project n) (node_kind n) s (node_adapters n)
    (node_ports n) (node_slots n) (node_settings n).

Definition with_slots (sl : gmap (Z * Z) positive) (n : node) : node :=
  Node (node_name n) (node_project n) (node_kind n) (node_state n)
    (node_adapters n) (node_ports n) sl (node_settings n).

Definition with_settings (st : dict) (n : node) : node :=
  Node (node_name n) (node_project n) (node_kind n) (node_state n)
    (node_adapters n) (node_ports n) (node_slots n) st.

(** An operation of the engine: a value or an exception, and the state. *)
Definition E (A : Type) : Type := engine -> result A * engine.

(** Run [k] on the node [n], or fail [NotFoundError]. *)
Definition on_node {A} (n : string) (k : node -> E A) : E A :=
  fun e =>
    match nodes e !! n with
    | Some nd => k nd e
    | None => (Raise NotFoundError, e)
    end.

(** *** NIO registry *)

(** The NIOs bound to some slot of some node. *)
Definition bound_refs (e : engine) : gset positive :=
  ⋃ ((fun nd => map_img (node_slots nd)) <$> (snd <$> map_to_list (nodes e))).

(** Every NIO that something refers to: a new NIO differs from all of them. *)
Definition used_refs (e : engine) : gset positive :=
  dom (nios e) ∪ bound_refs e ∪ dom (captures e).

(** Modelled from the spec: [create(descriptor)] of the NIO registry: a UDP
    tunnel needs a local port, a remote host and a remote port, the filters
    are optional; a malformed descriptor fails [ValidationError]. *)
Definition parse_descriptor (d : dict) : option nio :=
  match d !! "lport", d !! "rhost", d !! "rport" with
  | Some (VInt l), Some (VStr h), Some (VInt p) =>
      Some (Nio l h p (default (VDict []) (d !! "filters")))
  | _, _, _ => None
  end.

Definition nio_create (d : dict) : E positive :=
  fun e =>
    match parse_descriptor d with
    | Some o =>
        let r := fresh (used_refs e) in
        (Ok r, set_nios (insert r o) e)
    | None => (Raise ValidationError, e)
    end.

(** Modelled from the spec: [delete(nio)] of the NIO registry: releases the
    NIO and its capture session; a second delete fails [NotFoundError]. *)
Definition nio_delete (r : positive) : E unit :=
  fun e =>
    match nios e !! r with
    | Some _ => (Ok tt, set_captures (delete r) (set_nios (delete r) e))
    | None => (Raise NotFoundError, e)
    end.

(** Modelled from the spec: the JSON document of a NIO, [nio.__json__()]
    (the NIO classes are missing). *)
Definition nio_document (o : nio) : value :=
  VDict [("type", VStr "nio_udp"); ("lport", VInt (lport o));
         ("rhost", VStr (rhost o)); ("rport", VInt (rport o));
         ("filters", filters o)].

Definition nio_json (r : positive) : E value :=
  fun e =>
    match nios e !! r with
    | Some o => (Ok (nio_document o), e)
    | None => (Raise NotFoundError, e)
    end.

(** Modelled from the spec: the assignment [nio.filters = v] on a NIO of
    the registry (the NIO classes are missing). *)
Definition nio_set_filters (r : positive) (v : value) : E unit :=
  fun e =>
    (Ok tt,
     set_nios (alter (fun o => Nio (lport o) (rhost o) (rport o) v) r) e).

(** *** Adapter/port table *)

(** Modelled from the spec: the bounds check of a slot against the
    cardinality the node's kind declares. *)
Definition in_range (nd : node) (a p : Z) : bool :=
  (0 <=? a) && (a <? node_adapters nd) && (0 <=? p) && (p <? node_ports nd).

(** Modelled from the spec: [bind(node, adapter, port, nio)]: out of range
    fails [OutOfRangeError], an occupied slot [SlotOccupiedError], a NIO
    that was never created [NotFoundError]. *)
Definition bind_slot (n : string) (a p : Z) (r : positive) : E unit :=
  on_node n (fun nd e =>
    if negb (in_range nd a p) then (Raise OutOfRangeError, e)
    else match node_slots nd !! (a, p) with
         | Some _ => (Raise SlotOccupiedError, e)
         | None =>
             match nios e !! r with
             | None => (Raise NotFoundError, e)
             | Some _ =>
                 (Ok tt,
                  set_nodes (insert n (with_slots (<[(a, p) := r]> (node_slots nd)) nd)) e)
             end
         end).

(** Modelled from the spec: [unbind(node, adapter, port) -> NIO]: an empty
    slot fails [NotFoundError]; the capture session of the detached NIO
    ends. *)
Definition unbind_slot (n : string) (a p : Z) : E positive :=
  on_node n (fun nd e =>
    if negb (in_range nd a p) then (Raise OutOfRangeError, e)
    else match node_slots nd !! (a, p) with
         | None => (Raise NotFoundError, e)
         | Some r =>
             (Ok r,
              set_captures (delete r)
                (set_nodes (insert n (with_slots (delete (a, p) (node_slots nd)) nd)) e))
         end).

(** Modelled from the spec: [replace(node, adapter, port, new_nio)]: unbind
    then bind, as one step; the old NIO is returned, not deleted. *)
Definition replace_slot (n : string) (a p : Z) (new_nio : positive) : E positive :=
  fun e =>
    match unbind_slot n a p e with
    | (Ok old, e1) =>
        match bind_slot n a p new_nio e1 with
        | (Ok _, e2) => (Ok old, e2)
        | (Raise x, _) => (Raise x, e)
        end
    | (Raise x, _) => (Raise x, e)
    end.

(** Modelled from the spec: [lookup(node, adapter, port) -> NIO]. *)
Definition lookup_slot (n : string) (a p : Z) : E positive :=
  on_node n (fun nd e =>
    if negb (in_range nd a p) then (Raise OutOfRangeError, e)
    else match node_slots nd !! (a, p) with
         | None => (Raise NotFoundError, e)
         | Some r => (Ok r, e)
         end).

(** *** Capture subsystem *)

(** Modelled from the spec: the capture subsystem resolves the bound NIO
    through the table, [NoNioError] when the slot is unbound. *)
Definition resolve_nio (n : string) (a p : Z) : E positive :=
  on_node n (fun nd e =>
    if negb (in_range nd a p) then (Raise OutOfRangeError, e)
    else match node_slots nd !! (a, p) with
         | None => (Raise NoNioError, e)
         | Some r => (Ok r, e)
         end).

(** Modelled from the spec: [start_capture(node, adapter, port, file_path,
    link_type)]: [NoNioError] on an unbound slot, [AlreadyCapturingError]
    when the NIO has a session, else the session is registered. *)
Definition start_capture (n : string) (a p : Z) (file_path : string)
    (link_type : value) : E unit :=
  fun e =>
    match resolve_nio n a p e with
    | (Ok r, _) =>
        match captures e !! r with
        | Some _ => (Raise AlreadyCapturingError, e)
        | None => (Ok tt, set_captures (insert r (file_path, link_type)) e)
        end
    | (Raise x, _) => (Raise x, e)
    end.

(** Modelled from the spec: [stop_capture]: deregisters the session, or
    fails [NotCapturingError]. *)
Definition stop_capture (n : string) (a p : Z) : E unit :=
  fun e =>
    match resolve_nio n a p e with
    | (Ok r, _) =>
        match captures e !! r with
        | Some _ => (Ok tt, set_captures (delete r) e)
        | None => (Raise NotCapturingError, e)
        end
    | (Raise x, _) => (Raise x, e)
    end.

(** Modelled from the spec: [stream]: the bytes of the capture file of the
    NIO's session. *)
Definition stream_capture (r : positive) : E string :=
  fun e =>
    match captures e !! r with
    | Some (file_path, _) =>
        (Ok (default EmptyString (capture_files (env e) !! file_path)), e)
    | None => (Raise NotFoundError, e)
    end.

(** *** Lifecycle state machine *)

(** Modelled from the spec: the kinds that declare the suspend capability:
    the router does, the always-on hub does not. *)
Definition supports_suspend (k : kind) : bool :=
  match k with
  | KRouter => true
  | KHub => false
  end.

Definition kind_of_node_type (v : option value) : option kind :=
  match v with
  | Some (VStr "dynamips") => Some KRouter
  | Some (VStr "ethernet_hub") => Some KHub
  | _ => None
  end.

(** Modelled from the spec: a name collides when a node of the same
    project has it. *)
Definition name_taken (e : engine) (project name : string) : bool :=
  existsb (fun nd => String.eqb (node_project nd) project && String.eqb (node_name nd) name)
    (snd <$> map_to_list (nodes e)).

(** Modelled from the spec: [create(name, project, kind, settings)]:
    allocates the identity when none is given, returns a [DEFINED] node,
    fails [ConflictError] when the name or the id is taken. *)
Definition create (name : value) (project : string) (node_id : value)
    (kwargs : dict) : E string :=
  fun e =>
    match name, kind_of_node_type (kwargs !! "node_type"), node_id with
    | VStr nm, Some k, (VStr _ | VNone) =>
        let id := match node_id with
                  | VStr i => i
                  | _ => fresh (dom (nodes e))
                  end in
        if bool_decide (id ∈ dom (nodes e)) || name_taken e project nm
        then (Raise ConflictError, e)
        else
          let card := cardinality (env e) k in
          (Ok id,
           set_nodes (insert id (Node nm project k DEFINED (fst card) (snd card) ∅
                                   (delete "node_type" kwargs))) e)
    | _, _, _ => (Raise ValidationError, e)
    end.

(** Modelled from the spec: [update_settings(node, partial_settings)]
    merges the partial settings into the node's. *)
Definition update_settings (n : string) (partial : dict) : E unit :=
  on_node n (fun nd e =>
    (Ok tt, set_nodes (insert n (with_settings (partial ∪ node_settings nd) nd)) e)).

(** Modelled from the spec: [start(node)]: fails [InvalidStateError] unless
    [DEFINED]; on a driver failure the node remains [DEFINED] and the error
    is the driver's. *)
Definition start (n : string) : E unit :=
  on_node n (fun nd e =>
    match node_state nd with
    | DEFINED =>
        match driver_start_failure (env e) with
        | Some x => (Raise x, e)
        | None => (Ok tt, set_nodes (insert n (with_state RUNNING nd)) e)
        end
    | _ => (Raise InvalidStateError, e)
    end).

(** Modelled from the spec: [stop(node)] always ends in [DEFINED]. *)
Definition stop (n : string) : E unit :=
  on_node n (fun nd e =>
    (Ok tt, set_nodes (insert n (with_state DEFINED nd)) e)).

(** Modelled from the spec: [suspend] and [resume], for the kinds that
    declare the capability. *)
Definition suspend (n : string) : E unit :=
  on_node n (fun nd e =>
    if negb (supports_suspend (node_kind nd)) then (Raise UnsupportedOperationError, e)
    else match node_state nd with
         | RUNNING => (Ok tt, set_nodes (insert n (with_state SUSPENDED nd)) e)
         | _ => (Raise InvalidStateError, e)
         end).

Definition resume (n : string) : E unit :=
  on_node n (fun nd e =>
    if negb (supports_suspend (node_kind nd)) then (Raise UnsupportedOperationError, e)
    else match node_state nd with
         | SUSPENDED => (Ok tt, set_nodes (insert n (with_state RUNNING nd)) e)
         | _ => (Raise InvalidStateError, e)
         end).

(** Modelled from the spec: [reload]: stop then start from [RUNNING] or
    [SUSPENDED]; [InvalidStateError] from [DEFINED]. *)
Definition reload (n : string) : E unit :=
  on_node n (fun nd e =>
    match node_state nd with
    | DEFINED => (Raise InvalidStateError, e)
    | _ => match stop n e with
           | (Ok _, e1) => start n e1
           | (Raise x, e1) => (Raise x, e1)
           end
    end).

(** Modelled from the spec: [delete(node)]: refused while [RUNNING] or
    [SUSPENDED]; the slots and the capture sessions of the node go, its
    NIOs stay in the registry. *)
Definition delete_node (n : string) : E unit :=
  on_node n (fun nd e =>
    match node_state nd with
    | DEFINED =>
        (Ok tt,
         set_captures (fun c => foldr delete c (snd <$> map_to_list (node_slots nd)))
           (set_nodes (delete n) e))
    | _ => (Raise InvalidStateError, e)
    end).

(** Modelled from the spec: the new NIOs of a duplicate: each [new] NIO is
    registered with the descriptor of the [old] one (the NIO classes are
    missing). *)
Definition copy_nios (old_new : list (positive * positive))
    (m : gmap positive nio) : gmap positive nio :=
  foldr (fun '(old, new) acc =>
           match m !! old with
           | Some o => <[new := o]> acc
           | None => acc
           end) m old_new.

(** Modelled from the spec: [duplicate(node, destination_id)]: the
    configuration and the slot bindings are copied into a new [DEFINED]
    node; every bound slot gets a new NIO with the descriptor of the
    source's, and no capture session ([duplicate_node] of the manager is
    missing). *)
Definition duplicate (source destination : string) : E string :=
  on_node source (fun nd e =>
    if bool_decide (destination ∈ dom (nodes e)) then (Raise ConflictError, e)
    else
      let bindings := map_to_list (node_slots nd) in
      let new_refs := fresh_list (length bindings) (used_refs e) in
      let new_slots : gmap (Z * Z) positive :=
        list_to_map (zip (fst <$> bindings) new_refs) in
      (Ok destination,
       set_nios (copy_nios (zip (snd <$> bindings) new_refs))
         (set_nodes (insert destination (with_state DEFINED (with_slots new_slots nd))) e))).

(** *** Idle-PC coordinator *)

(** Modelled from the spec: [propose(node)] returns the candidates of the
    backend's sampling. *)
Definition propose (n : string) : E (list string) :=
  on_node n (fun nd e => (Ok (idle_pc_samples (env e)), e)).

(** Modelled from the spec: [apply(node, candidate)] validates the
    candidate and persists it onto the node's settings. *)
Definition apply_idlepc (n : string) (candidate : string) : E unit :=
  on_node n (fun nd e =>
    if idle_pc_valid (env e) candidate
    then (Ok tt,
          set_nodes (insert n (with_settings (<["idlepc" := VStr candidate]> (node_settings nd)) nd)) e)
    else (Raise ValidationError, e)).

(** Modelled from the spec: [auto_select(node)]: propose, take the first
    candidate, apply it; [NoCandidateError] when there is none. *)
Definition auto_select (n : string) : E value :=
  fun e =>
    match propose n e with
    | (Ok [], e1) => (Raise NoCandidateError, e1)
    | (Ok (c :: _), e1) =>
        match apply_idlepc n c e1 with
        | (Ok _, e2) => (Ok (VStr c), e2)
        | (Raise x, e2) => (Raise x, e2)
        end
    | (Raise x, e1) => (Raise x, e1)
    end.

(** The stored idle-pc value of a node. *)
Definition idlepc_of (e : engine) (n : string) : option value :=
  nd ← nodes e !! n; node_settings nd !! "idlepc".

Definition state_of (e : engine) (n : string) : option state :=
  node_state <$> nodes e !! n.

Definition slot_of (e : engine) (n : string) (a p : Z) : option positive :=
  nd ← nodes e !! n; node_slots nd !! (a, p).

(** *** The engine as a backend *)

Definition state_string (s : state) : string :=
  match s with
  | DEFINED => "stopped"
  | RUNNING => "started"
  | SUSPENDED => "suspended"
  end.

(** Modelled from the spec: the JSON document of a node,
    [node.__json__()] (the node classes are missing). *)
Definition node_json (n : string) : E value :=
  on_node n (fun nd e =>
    (Ok (VDict [("node_id", VStr n); ("name", VStr (node_name nd));
                ("project_id", VStr (node_project nd));
                ("status", VStr (state_string (node_state nd)));
                ("settings", VDict (map_to_list (node_settings nd)))]), e)).

(** Modelled from the spec: the preparation before a start has no effect on
    the node; whether it fails is the environment's. *)
Definition ghost_ios_support (n : string) : E unit :=
  on_node n (fun nd e =>
    match ghost_ios_failure (env e) with
    | Some x => (Raise x, e)
    | None => (Ok tt, e)
    end).

(** Modelled from the spec: the manager resolves a node handle by id
    within its project; a missing node or project is [NotFoundError]
    ([get_node] of the manager is missing). *)
Definition get_node (node_id project_id : string) : E string :=
  on_node node_id (fun nd e =>
    if String.eqb (node_project nd) project_id then (Ok node_id, e)
    else (Raise NotFoundError, e)).

Definition discard {A} (m : E A) : E unit :=
  fun e =>
    match m e with
    | (Ok _, e') => (Ok tt, e')
    | (Raise x, e') => (Raise x, e')
    end.

(** Modelled from the spec: each method the endpoints call, as the
    operation of the engine it stands for; the hub's methods address
    adapter 0, and [slot_update_nio_binding] is [replace] with its result
    dropped. *)
Definition handle_call {X : Type} (c : call X) : E X :=
  match c in call T return E T with
  | Dynamips_get_node node_id project_id => get_node node_id project_id
  | Dynamips_create_node name project_id node_id kwargs =>
      create name project_id node_id kwargs
  | Dynamips_update_vm_settings vm settings => update_settings vm settings
  | Dynamips_delete_node node_id => delete_node node_id
  | Dynamips_ghost_ios_support n => ghost_ios_support n
  | Dynamips_create_nio n d => nio_create d
  | Dynamips_stream_pcap_file r _ => stream_capture r
  | Dynamips_auto_idlepc n => auto_select n
  | Dynamips_duplicate_node s d => duplicate s d
  | Node_json n => node_json n
  | Node_updated n => on_node n (fun _ e => (Ok tt, e))
  | Node_project_id n => on_node n (fun nd e => (Ok (node_project nd), e))
  | Project_capture_working_directory n =>
      on_node n (fun _ e => (Ok (capture_directory (env e)), e))
  | Router_start n => start n
  | Router_stop n => stop n
  | Router_suspend n => suspend n
  | Router_resume n => resume n
  | Router_reload n => reload n
  | Router_slot_add_nio_binding n a p r => bind_slot n a p r
  | Router_slot_update_nio_binding n a p r => discard (replace_slot n a p r)
  | Router_slot_remove_nio_binding n a p => unbind_slot n a p
  | Router_get_nio n a p => lookup_slot n a p
  | Router_start_capture n a p f l => start_capture n a p f l
  | Router_stop_capture n a p => stop_capture n a p
  | Router_set_idlepc n v => apply_idlepc n v
  | Router_get_idle_pc_prop n => propose n
  | Router_reset_console n => on_node n (fun _ e => (Ok tt, e))
  | EthernetHub_add_nio n r p => bind_slot n 0 p r
  | EthernetHub_remove_nio n p => unbind_slot n 0 p
  | EthernetHub_get_nio n p => lookup_slot n 0 p
  | EthernetHub_start_capture n p f l => start_capture n 0 p f l
  | EthernetHub_stop_capture n p => stop_capture n 0 p
  | NIO_json r => nio_json r
  | NIO_set_filters r v => nio_set_filters r v
  | NIO_delete r => nio_delete r
  end.

Definition model : Backend :=
  {| bstate := engine; handle := @handle_call |}.

End Engine.

(** ** Route lookup *)

Global Instance operation_eq_dec : EqDecision operation.
Proof. solve_decision. Defined.

Definition route_for (o : operation) (rs : list route) : option route :=
  find (fun r => bool_decide (op r = o)) rs.

(** The status of the response to operation [o] of a route table. *)
Definition respond {A} (rs : list route) (o : operation) (res : result A) : option Z :=
  r ← route_for o rs; response_status r res.







(** ** The path joins of the two platforms *)

(** [os.path.join] is [posixpath.join] on Linux and [ntpath.join] on
    Windows.  Both are given here for two arguments, as the endpoints call
    them, on strings of one-byte characters: a [str] of the program is its
    UTF-8 encoding.  [ntpath_join] is the join of Python 3.11 on every pair of
    paths whose drives are ASCII; it compares drives by folding the letters
    of ASCII only. *)
Module OsPath.

Definition backslash : string := String "092"%char EmptyString.

Definition is_empty (s : string) : bool :=
  match s with EmptyString => true | String _ _ => false end.

(** [s[k:]]. *)
Definition slice_from (k : nat) (s : string) : string :=
  substring k (String.length s - k) s.

(** [s[-1:]]. *)
Fixpoint last_char (s : string) : string :=
  match s with
  | EmptyString => EmptyString
  | String c EmptyString => s
  | String _ s' => last_char s'
  end.

Fixpoint map_chars (f : ascii -> ascii) (s : string) : string :=
  match s with
  | EmptyString => EmptyString
  | String c s' => String (f c) (map_chars f s')
  end.

(** [str.upper] and [str.lower], on the letters of ASCII. *)
Definition upper_char (c : ascii) : ascii :=
  let n := nat_of_ascii c in
  if Nat.leb 97 n && Nat.leb n 122 then ascii_of_nat (n - 32) else c.

Definition lower_char (c : ascii) : ascii :=
  let n := nat_of_ascii c in
  if Nat.leb 65 n && Nat.leb n 90 then ascii_of_nat (n + 32) else c.

(** [posixpath.join(a, b)]: an absolute [b] replaces [a]; otherwise [b] is
    appended, after a slash unless [a] is empty or ends with one. *)
Definition posixpath_join (a b : string) : string :=
  if String.prefix "/" b then b
  else if is_empty a || String.eqb (last_char a) "/" then a +:+ b
  else a +:+ "/" +:+ b.

(** [p[0] in '\\/'] for a non-empty [p], false for the empty one. *)
Definition starts_with_sep (p : string) : bool :=
  String.prefix backslash p || String.prefix "/" p.

(** [p[-1] in '\\/'] for a non-empty [p], false for the empty one. *)
Definition ends_with_sep (p : string) : bool :=
  String.eqb (last_char p) backslash || String.eqb (last_char p) "/".

Definition unc_prefix : string :=
  backslash +:+ backslash +:+ "?" +:+ backslash +:+ "UNC" +:+ backslash.

(** [ntpath.splitdrive(p)]: the drive is a UNC or device prefix up to the
    second separator after it, or a letter and a colon, or empty. *)
Definition ntpath_splitdrive (p : string) : string * string :=
  if Nat.leb 2 (String.length p) then
    let normp := map_chars (fun c => if Ascii.eqb c "/" then "092"%char else c) p in
    if String.eqb (substring 0 2 normp) (backslash +:+ backslash) then
      let start :=
        if String.eqb (map_chars upper_char (substring 0 8 normp)) unc_prefix
        then 8%nat else 2%nat in
      match index start backslash normp with
      | None => (p, EmptyString)
      | Some i =>
          match index (i + 1) backslash normp with
          | None => (p, EmptyString)
          | Some i2 => (substring 0 i2 p, slice_from i2 p)
          end
      end
    else if String.eqb (substring 1 1 normp) ":" then (substring 0 2 p, slice_from 2 p)
    else (EmptyString, p)
  else (EmptyString, p).

(** [ntpath.join(path, p)]. *)
Definition ntpath_join (path p : string) : string :=
  let (result_drive, result_path) := ntpath_splitdrive path in
  let (p_drive, p_path) := ntpath_splitdrive p in
  let relative (drive : string) : string * string :=
    (drive,
     (if negb (is_empty result_path) && negb (ends_with_sep result_path)
      then result_path +:+ backslash else result_path) +:+ p_path) in
  let (drive, tail) :=
    if starts_with_sep p_path then
      (if negb (is_empty p_drive) || is_empty result_drive then p_drive else result_drive,
       p_path)
    else if negb (is_empty p_drive) && negb (String.eqb p_drive result_drive) then
      if negb (String.eqb (map_chars lower_char p_drive) (map_chars lower_char result_drive))
      then (p_drive, p_path)
      else relative p_drive
    else relative result_drive in
  if negb (is_empty tail) && negb (starts_with_sep tail)
     && negb (is_empty drive) && negb (String.eqb (last_char drive) ":")
  then drive +:+ backslash +:+ tail
  else drive +:+ tail.

End OsPath.

(** ** Sample requests and engine states *)

Module Sample.
Import Engine.

(** A Linux host: [os.path] is [posixpath]. *)
Definition linux : Runtime :=
  {| sys_platform := "linux";
     os_path_join := OsPath.posixpath_join |}.

Definition backslash : string := OsPath.backslash.

(** A Windows host: [os.path] is [ntpath]. *)
Definition win32 : Runtime :=
  {| sys_platform := "win32";
     os_path_join := OsPath.ntpath_join |}.

(** A file name with a non-ASCII letter: the two UTF-8 bytes of e-acute. *)
Definition non_ascii_name : string :=
  "capture_" +:+ String "195"%char (String "169"%char ".pcap").

Definition capture_request : NodeCapture :=
  {| capture_file_name := non_ascii_name; data_link_type := VStr "DLT_EN10MB" |}.

Definition env0 : environment :=
  Environment None None ["0x60606060"; "0x60a0b0c0"] (fun _ => true)
    "/tmp/captures" ∅
    (fun k => match k with KRouter => (2, 4) | KHub => (1, 8) end).

Definition with_ghost_failure (x : exn) (v : environment) : environment :=
  Environment (Some x) (driver_start_failure v) (idle_pc_samples v)
    (idle_pc_valid v) (capture_directory v) (capture_files v) (cardinality v).

Definition with_driver_failure (x : exn) (v : environment) : environment :=
  Environment (ghost_ios_failure v) (Some x) (idle_pc_samples v)
    (idle_pc_valid v) (capture_directory v) (capture_files v) (cardinality v).

Definition nio1 : nio := Nio 4000 "127.0.0.1" 4001 (VDict []).
Definition nio2 : nio := Nio 4002 "127.0.0.1" 4003 (VDict []).

(** A router of project P1 with two bound slots and a stored idle-pc. *)
Definition router1 (s : state) : node :=
  Node "R1" "P1" KRouter s 2 4
    (<[(0, 0) := 1%positive]> (<[(0, 1) := 2%positive]> ∅))
    (<["idlepc" := VStr "0x60606060"]> ∅).

Definition hub1 : node :=
  Node "H1" "P1" KHub DEFINED 1 8 ∅ ∅.

Definition engine_with (s : state) (v : environment) : engine :=
  Engine (<["R1" := router1 s]> (<["H1" := hub1]> ∅))
    (<[1%positive := nio1]> (<[2%positive := nio2]> ∅)) ∅ v.

Definition e0 : engine := engine_with DEFINED env0.

Definition e_running : engine := engine_with RUNNING env0.

(** The preparation of the start is interrupted by [GeneratorExit]. *)
Definition e_ghost_exit : engine :=
  engine_with DEFINED (with_ghost_failure GeneratorExit env0).

(** The driver refuses to start. *)
Definition e_driver_fails : engine :=
  engine_with DEFINED (with_driver_failure (BackendError "dynamips exited") env0).

Definition initial (e : engine) : world Engine.model :=
  @World Engine.model [] e.

(** A NIO request with another tunnel than the one bound, and no filters. *)
Definition udp_request : dict :=
  <["type" := VStr "nio_udp"]> (<["lport" := VInt 5000]>
  (<["rhost" := VStr "10.0.0.2"]> (<["rport" := VInt 5001]> ∅))).

(** Requests for a new router: a platform, a node id and maybe a chassis. *)
Definition create_request (platform : string) (chassis : option string) : DynamipsCreate :=
  {| dc_name := "R3"; dc_platform := platform;
     dc_optional :=
       match chassis with
       | Some c => <["chassis" := VStr c]> (<["node_id" := VStr "n3"]> ∅)
       | None => <["node_id" := VStr "n3"]> ∅
       end |}.

(** The chassis of node n3, as the engine has it. *)
Definition chassis_of_n3 (e : engine) : option value :=
  nd ← nodes e !! "n3"; node_settings nd !! "chassis".

End Sample.

(** ** Statements of the specification that the endpoints do not meet *)

Module Claimed.
Import Engine.

(** "Start never swallows an exception raised by the backend driver or its
    preparation steps": whatever the preparation raises, start raises. *)
Definition start_never_swallows : Prop :=
  forall (B : Backend) (node : node_ref) (w : world B) (x : exn) (s' : bstate B),
    handle B (Dynamips_ghost_ios_support node) (backend w) = (Raise x, s') ->
    fst (DynamipsNodes.start_router node w) = Raise x.

(** "The NIO update endpoint binds the new NIO supplied by the caller": after
    it, the slot holds a NIO with the caller's descriptor. *)
Definition update_binds_supplied_nio : Prop :=
  forall (e : engine) (node : node_ref) (a p : Z) (nio_data : dict)
         (old : positive) (supplied : nio) (t : list event),
    slot_of e node a p = Some old ->
    parse_descriptor nio_data = Some supplied ->
    exists r,
      slot_of (backend (snd (DynamipsNodes.update_nio a p nio_data node
                               (@World Engine.model t e)))) node a p = Some r /\
      nios (backend (snd (DynamipsNodes.update_nio a p nio_data node
                            (@World Engine.model t e)))) !! r = Some supplied.

(** "The node's stored idle-pc value after propose equals its value
    before." *)
Definition propose_keeps_idlepc : Prop :=
  forall (e : engine) (node : node_ref) (t : list event),
    idlepc_of (backend (snd (DynamipsNodes.get_idlepcs node
                               (@World Engine.model t e)))) node
    = idlepc_of e node.

End Claimed.

(** ** Requests: a handler behind its dependency *)

Module Requests.
Section Requests.
Context {B : Backend}.

(** [node: EthernetHub = Depends(dep_node)]: the node is resolved from the
    path parameters first, then the handler runs with it. *)
Definition hub_request {A} (h : node_ref -> M B A) (project_id node_id : string)
  : M B A :=
  node <- EthernetHubNodes.dep_node project_id node_id ;;
  h node.


End Requests.
End Requests.

(** ** ethernet_hub_nodes.py: update_ethernet_hub *)

(** [update_ethernet_hub] reads and assigns attributes of the hub object
    ([node.name], [node.ports_mapping]) besides calling its methods.  These
    accesses have calls of their own here, with their own log. *)

Module EthernetHubUpdate.

Inductive hub_call : Type -> Type :=
| Hub_name (node : node_ref) : hub_call string
| Hub_set_name (node : node_ref) (name : value) : hub_call unit
| Hub_set_ports_mapping (node : node_ref) (ports_mapping : value) : hub_call unit
| Hub_updated (node : node_ref) : hub_call unit
| Hub_json (node : node_ref) : hub_call value.

Inductive hub_event :=
| HubCalled {X : Type} (c : hub_call X).

Record HubBackend := {
  hstate : Type;
  hub_handle : forall X : Type, hub_call X -> hstate -> result X * hstate
}.
Arguments hub_handle _ {X} c s.

Section Handler.
Context {H : HubBackend}.

Record hub_world := HubWorld {
  hub_calls : list hub_event;
  hub_state : hstate H
}.

Definition HM (A : Type) : Type := hub_world -> result A * hub_world.

Definition hret {A} (a : A) : HM A := fun w => (Ok a, w).

Definition hbind {A C} (m : HM A) (k : A -> HM C) : HM C :=
  fun w =>
    match m w with
    | (Ok a, w') => k a w'
    | (Raise e, w') => (Raise e, w')
    end.

Definition hperform {X} (c : hub_call X) : HM X :=
  fun w =>
    let (r, s) := hub_handle H c (hub_state w) in
    (r, HubWorld (hub_calls w ++ [HubCalled c]) s).

(** [current != v], where [current] is a [str]: a [str] equals no value of
    another type. *)
Definition str_ne (current : string) (v : value) : bool :=
  match v with
  | VStr s => negb (String.eqb current s)
  | _ => true
  end.

Definition update_ethernet_hub (node_data : dict) (node : node_ref) : HM value :=
  hbind
    (match node_data !! "name" with
     | Some name =>
         hbind (hperform (Hub_name node)) (fun current =>
           if str_ne current name
           then hperform (Hub_set_name node name)
           else hret tt)
     | None => hret tt
     end) (fun _ =>
  hbind
    (match node_data !! "ports_mapping" with
     | Some ports_mapping => hperform (Hub_set_ports_mapping node ports_mapping)
     | None => hret tt
     end) (fun _ =>
  hbind (hperform (Hub_updated node)) (fun _ =>
  hperform (Hub_json node)))).

End Handler.
Arguments hub_world H : clear implicits.
Arguments HM H A : clear implicits.

(** The calls that a successful update makes, given the name [current] that
    the hub has. *)
Definition expected_calls (node_data : dict) (node : node_ref) (current : string)
  : list hub_event :=
  match node_data !! "name" with
  | Some name =>
      HubCalled (Hub_name node)
      :: (if str_ne current name then [HubCalled (Hub_set_name node name)] else [])
  | None => []
  end
  ++ match node_data !! "ports_mapping" with
     | Some ports_mapping => [HubCalled (Hub_set_ports_mapping node ports_mapping)]
     | None => []
     end
  ++ [HubCalled (Hub_updated node); HubCalled (Hub_json node)].

(** A hub object for the examples: a name, a ports mapping and the number
    of times [updated()] was called; a name that is not a string and a
    ports mapping that is not a list are refused. *)
Record simple_hub := SimpleHub {
  sh_name : string;
  sh_ports_mapping : value;
  sh_updates : nat
}.

Definition simple_handle {X : Type} (c : hub_call X) (s : simple_hub)
  : result X * simple_hub :=
  match c in hub_call T return result T * simple_hub with
  | Hub_name _ => (Ok (sh_name s), s)
  | Hub_set_name _ name =>
      match name with
      | VStr n => (Ok tt, SimpleHub n (sh_ports_mapping s) (sh_updates s))
      | _ => (Raise ValidationError, s)
      end
  | Hub_set_ports_mapping _ pm =>
      match pm with
      | VList _ => (Ok tt, SimpleHub (sh_name s) pm (sh_updates s))
      | _ => (Raise ValidationError, s)
      end
  | Hub_updated _ => (Ok tt, SimpleHub (sh_name s) (sh_ports_mapping s) (S (sh_updates s)))
  | Hub_json _ =>
      (Ok (VDict [("name", VStr (sh_name s)); ("ports_mapping", sh_ports_mapping s)]), s)
  end.

Definition simple : HubBackend :=
  {| hstate := simple_hub; hub_handle := @simple_handle |}.

Definition hub0 : simple_hub := SimpleHub "Hub1" (VList []) 0.

End EthernetHubUpdate.

(** ** More sample requests *)

Module Scenario.
Import Engine.

(** A request for a new hub, with a node id and maybe a field that the
    endpoint does not read. *)
Definition hub_create (console : option Z) : EthernetHubCreate :=
  {| ehc_name := "H2";
     ehc_optional :=
       match console with
       | Some c => <["console" := VInt c]> (<["node_id" := VStr "h2"]> ∅)
       | None => <["node_id" := VStr "h2"]> ∅
       end |}.

(** Slot (0, 0) of R1 is being captured. *)
Definition e_capturing : engine :=
  Engine (nodes Sample.e0) (nios Sample.e0)
    (<[1%positive := ("/tmp/captures/a.pcap", VStr "DLT_EN10MB")]> ∅) (env Sample.e0).

Definition ascii_capture_request : NodeCapture :=
  {| capture_file_name := "a.pcap"; data_link_type := VStr "DLT_EN10MB" |}.


Definition hub_taken : EthernetHubCreate :=
  {| ehc_name := "H1"; ehc_optional := <["node_id" := VStr "H1"]> ∅ |}.

(** Port 0 of the hub H1 holds a NIO. *)
Definition e_hub_bound : engine :=
  Engine (<["H1" := with_slots (<[(0, 0) := 5%positive]> ∅) Sample.hub1]> (nodes Sample.e0))
    (<[5%positive := Nio 4010 "127.0.0.1" 4011 (VDict [])]> (nios Sample.e0))
    ∅ (env Sample.e0).

End Scenario.

(** * Properties *)

(** ** The handler monad *)

Section MonadFacts.
Context {B : Backend}.

Lemma perform_run {X} (c : call X) (t : list event) (s : bstate B) :
  perform c (World t s)
  = (fst (handle B c s), World (t ++ [Called c]) (snd (handle B c s))).
Proof. unfold perform; simpl. destruct (handle B c s); reflexivity. Qed.

Lemma perform_as {X} (c : call X) (t : list event) (s s' : bstate B) (r : result X) :
  handle B c s = (r, s') ->
  perform c (World t s) = (r, World (t ++ [Called c]) s').
Proof. intros H. rewrite perform_run, H. reflexivity. Qed.

Lemma bind_ok {A C} (m : M B A) (k : A -> M B C) w a w' :
  m w = (Ok a, w') -> bind m k w = k a w'.
Proof. intros H. unfold bind. rewrite H. reflexivity. Qed.

Lemma bind_raise {A C} (m : M B A) (k : A -> M B C) w x w' :
  m w = (Raise x, w') -> bind m k w = (Raise x, w').
Proof. intros H. unfold bind. rewrite H. reflexivity. Qed.

(** A computation that returns went through its first part. *)
Lemma bind_inv_ok {A C} (m : M B A) (k : A -> M B C) w c w' :
  bind m k w = (Ok c, w') ->
  exists a w1, m w = (Ok a, w1) /\ k a w1 = (Ok c, w').
Proof.
  unfold bind. destruct (m w) as [[a|x] w1]; intros H.
  - exists a, w1. split; [reflexivity | exact H].
  - discriminate H.
Qed.

Lemma perform_inv {X} (c : call X) (w w' : world B) (r : result X) :
  perform c w = (r, w') ->
  handle B c (backend w) = (r, backend w') /\ calls w' = calls w ++ [Called c].
Proof.
  unfold perform. destruct (handle B c (backend w)) as [r0 s0].
  intros H. inversion H; subst. split; reflexivity.
Qed.

(** A run is known by its result, its log and the state it leaves. *)
Lemma run_is {A} (x : result A * world B) (a : result A) (t : list event)
    (s : bstate B) :
  fst x = a -> calls (snd x) = t -> backend (snd x) = s -> x = (a, World t s).
Proof. destruct x as [r [t0 s0]]; simpl. intros -> -> ->. reflexivity. Qed.

End MonadFacts.

Ltac by_run := vm_compute; reflexivity.

(** Evaluate a run on a concrete world, component by component. *)
Ltac by_world := apply run_is; by_run.

(** ** Ethernet hub: start, stop and suspend *)

(** C1.  For every Ethernet hub node, [start], [stop] and [suspend] do
    nothing: whatever the backend and the world, the handler returns, the
    response carries status 204, and the world (the log of backend calls and
    the backend's state, with the node's state and configuration in it) is
    the one before the request. *)
Theorem C1_hub_start_stop_suspend_noop :
  forall (B : Backend) (node : node_ref) (w : world B),
    let answer (o : operation) (h : node_ref -> M B unit) :=
      (respond EthernetHubNodes.routes o (fst (h node w)), snd (h node w)) in
    answer OpStart EthernetHubNodes.start_ethernet_hub = (Some 204, w) /\
    answer OpStop EthernetHubNodes.stop_ethernet_hub = (Some 204, w) /\
    answer OpSuspend EthernetHubNodes.suspend_ethernet_hub = (Some 204, w).
Proof.
  intros B node w answer. unfold answer.
  repeat apply conj; reflexivity.
Qed.

(** ** Dynamips router: start *)

Section StartRouter.
Import Engine.

Lemma engine_start_failure_keeps_state (n : string) (e e' : engine) (x : exn) :
  start n e = (Raise x, e') -> e' = e.
Proof.
  unfold start, on_node. destruct (nodes e !! n) as [nd|]; [|congruence].
  destruct (node_state nd); try congruence.
  destruct (driver_start_failure (env e)); congruence.
Qed.

Lemma engine_ghost_keeps_state (n : string) (e e' : engine) (r : result unit) :
  ghost_ios_support n e = (r, e') -> e' = e.
Proof.
  unfold ghost_ios_support, on_node. destruct (nodes e !! n) as [nd|]; [|congruence].
  destruct (ghost_ios_failure (env e)); congruence.
Qed.

(** C2, amended.  The result of [start_router] is the result of
    [node.start()] as it is, error or not, with the state [node.start()]
    left, unless the preparation [ghost_ios_support] raised something else
    than [GeneratorExit]: then it is that exception, as it is, with the
    state the preparation left.  A [GeneratorExit] of the preparation is
    caught and the start goes on.  With the engine's driver, a start that
    fails on a [DEFINED] node leaves it [DEFINED]. *)
Theorem C2_start_router_surfaces_errors :
  forall (B : Backend) (node : node_ref) (t : list event)
         (s s1 s2 : bstate B) (r1 r2 : result unit),
    handle B (Dynamips_ghost_ios_support node) s = (r1, s1) ->
    handle B (Router_start node) s1 = (r2, s2) ->
    DynamipsNodes.start_router node (World t s)
    = match r1 with
      | Ok _ | Raise GeneratorExit =>
          (r2, World (t ++ [Called (Dynamips_ghost_ios_support node);
                            Called (Router_start node)]) s2)
      | Raise x => (Raise x, World (t ++ [Called (Dynamips_ghost_ios_support node)]) s1)
      end
    /\ (forall (e : engine) (t' : list event) (x : exn) (w' : world Engine.model),
          state_of e node = Some DEFINED ->
          DynamipsNodes.start_router node (@World Engine.model t' e) = (Raise x, w') ->
          state_of (backend w') node = Some DEFINED).
Proof.
  intros B node t s s1 s2 r1 r2 H1 H2. split.
  - unfold DynamipsNodes.start_router, bind, try_except.
    rewrite (perform_as _ _ _ _ _ H1).
    destruct r1 as [[]|x]; [|destruct x]; simpl;
      try reflexivity;
      rewrite (perform_as _ _ _ _ _ H2), <- app_assoc; reflexivity.
  - intros e t' x w' Hdef.
    unfold DynamipsNodes.start_router, bind, try_except.
    rewrite !perform_run. simpl.
    destruct (ghost_ios_support node e) as [g e1] eqn:Hg.
    pose proof (engine_ghost_keeps_state _ _ _ _ Hg) as ->. simpl.
    assert (Hstart : forall tt',
      perform (B:=Engine.model) (Router_start node) (@World Engine.model tt' e) = (Raise x, w') ->
      state_of (backend w') node = Some DEFINED).
    { intros tt'. rewrite perform_run. simpl.
      destruct (start node e) as [r e2] eqn:Hs. simpl. intros Heq.
      inversion Heq; subst. simpl.
      pose proof (engine_start_failure_keeps_state _ _ _ _ Hs) as ->. exact Hdef. }
    destruct g as [[]|y]; [apply Hstart|].
    destruct y; simpl; try apply Hstart;
      intros Heq; inversion Heq; subst; exact Hdef.
Qed.

End StartRouter.

(** C2, as claimed, fails: the preparation of the start of R1 raises
    [GeneratorExit], and [start_router] answers with success. *)
Lemma C2_counterexample_generator_exit_swallowed :
  ~ Claimed.start_never_swallows.
Proof.
  intros H.
  assert (Hprep :
    handle Engine.model (Dynamips_ghost_ios_support "R1")
      (backend (Sample.initial Sample.e_ghost_exit))
    = (Raise GeneratorExit, Sample.e_ghost_exit)) by by_run.
  specialize (H Engine.model "R1" (Sample.initial Sample.e_ghost_exit)
                GeneratorExit Sample.e_ghost_exit Hprep).
  vm_compute in H. discriminate H.
Qed.

(** The driver refuses to start R1: the error comes out as it is and R1 is
    still [DEFINED]. *)
Lemma C2_witness_driver_failure :
  DynamipsNodes.start_router "R1" (Sample.initial Sample.e_driver_fails)
  = (Raise (BackendError "dynamips exited"),
     @World Engine.model
       [Called (Dynamips_ghost_ios_support "R1"); Called (Router_start "R1")]
       Sample.e_driver_fails)
  /\ Engine.state_of Sample.e_driver_fails "R1" = Some Engine.DEFINED.
Proof.
  assert (H1 : handle Engine.model (Dynamips_ghost_ios_support "R1") Sample.e_driver_fails
               = (Ok tt, Sample.e_driver_fails)) by by_run.
  assert (H2 : handle Engine.model (Router_start "R1") Sample.e_driver_fails
               = (Raise (BackendError "dynamips exited"), Sample.e_driver_fails)) by by_run.
  assert (H3 : Engine.state_of Sample.e_driver_fails "R1" = Some Engine.DEFINED) by by_run.
  destruct (C2_start_router_surfaces_errors Engine.model "R1" [] _ _ _ _ _ H1 H2)
    as [Hrun Hstate].
  split; [exact Hrun | exact (Hstate _ _ _ _ H3 Hrun)].
Defined.

(** ** Dynamips router: idle-PC proposals *)

Section IdlePC.
Import Engine.

Lemma get_idlepcs_run {B : Backend} (node : node_ref) (t : list event)
    (s s1 s2 : bstate B) (r1 : result unit) (r2 : result (list string)) :
  handle B (Router_set_idlepc node "0x0") s = (r1, s1) ->
  handle B (Router_get_idle_pc_prop node) s1 = (r2, s2) ->
  DynamipsNodes.get_idlepcs node (World t s)
  = match r1 with
    | Ok _ => (r2, World (t ++ [Called (Router_set_idlepc node "0x0");
                                Called (Router_get_idle_pc_prop node)]) s2)
    | Raise x => (Raise x, World (t ++ [Called (Router_set_idlepc node "0x0")]) s1)
    end.
Proof.
  intros H1 H2. unfold DynamipsNodes.get_idlepcs, bind.
  rewrite (perform_as _ _ _ _ _ H1).
  destruct r1 as [[]|x]; [|reflexivity].
  rewrite (perform_as _ _ _ _ _ H2), <- app_assoc. reflexivity.
Qed.

Lemma apply_idlepc_ok (n c : string) (e : engine) (nd : Engine.node) :
  nodes e !! n = Some nd ->
  idle_pc_valid (env e) c = true ->
  apply_idlepc n c e
  = (Ok tt,
     set_nodes (insert n (with_settings (<["idlepc" := VStr c]> (node_settings nd)) nd)) e).
Proof.
  intros Hnd Hvalid. unfold apply_idlepc, on_node. rewrite Hnd, Hvalid. reflexivity.
Qed.

Lemma propose_ok (n : string) (e : engine) (nd : Engine.node) :
  nodes e !! n = Some nd ->
  propose n e = (Ok (idle_pc_samples (env e)), e).
Proof. intros Hnd. unfold propose, on_node. rewrite Hnd. reflexivity. Qed.

(** C5, amended.  [get_idlepcs] first sets the node's idle-pc to "0x0"
    through [set_idlepc] and then returns the candidates of the sampling as
    they are; an error of either call comes out as it is.  With the engine,
    where [set_idlepc] persists the value: on a node that exists, with
    "0x0" accepted, the proposals are the sampling's candidates, the stored
    idle-pc is "0x0" afterwards, whatever it was, and the other settings are
    the ones before. *)
Theorem C5_get_idlepcs_resets_idlepc :
  forall (B : Backend) (node : node_ref) (t : list event)
         (s s1 s2 : bstate B) (r1 : result unit) (r2 : result (list string)),
    handle B (Router_set_idlepc node "0x0") s = (r1, s1) ->
    handle B (Router_get_idle_pc_prop node) s1 = (r2, s2) ->
    DynamipsNodes.get_idlepcs node (World t s)
    = match r1 with
      | Ok _ => (r2, World (t ++ [Called (Router_set_idlepc node "0x0");
                                  Called (Router_get_idle_pc_prop node)]) s2)
      | Raise x => (Raise x, World (t ++ [Called (Router_set_idlepc node "0x0")]) s1)
      end
    /\ (forall (e : engine) (nd : Engine.node) (t' : list event),
          nodes e !! node = Some nd ->
          idle_pc_valid (env e) "0x0" = true ->
          exists w' : world Engine.model,
            DynamipsNodes.get_idlepcs node (@World Engine.model t' e)
            = (Ok (idle_pc_samples (env e)), w') /\
            idlepc_of (backend w') node = Some (VStr "0x0") /\
            exists nd', nodes (backend w') !! node = Some nd' /\
              forall k, k <> "idlepc" -> node_settings nd' !! k = node_settings nd !! k).
Proof.
  intros B node t s s1 s2 r1 r2 H1 H2. split.
  - exact (get_idlepcs_run node t s s1 s2 r1 r2 H1 H2).
  - intros e nd t' Hnd Hvalid.
    pose proof (apply_idlepc_ok node "0x0" e nd Hnd Hvalid) as Hset.
    set (nd' := with_settings (<["idlepc" := VStr "0x0"]> (node_settings nd)) nd) in *.
    set (e1 := set_nodes (insert node nd') e) in *.
    assert (Hnd' : nodes e1 !! node = Some nd') by apply lookup_insert_eq.
    pose proof (propose_ok node e1 nd' Hnd') as Hprop.
    eexists. split.
    + exact (get_idlepcs_run (B:=Engine.model) node t' e e1 e1 _ _ Hset Hprop).
    + simpl. split.
      * unfold idlepc_of. rewrite Hnd'. simpl. apply lookup_insert_eq.
      * exists nd'. split; [exact Hnd'|].
        intros k Hk. simpl. apply lookup_insert_ne. congruence.
Qed.

End IdlePC.

(** C5, as claimed, fails: R1 has the idle-pc 0x60606060 before the
    proposals are asked for and 0x0 after. *)
Lemma C5_counterexample_idlepc_overwritten :
  ~ Claimed.propose_keeps_idlepc.
Proof.
  intros H. specialize (H Sample.e0 "R1" []).
  vm_compute in H. discriminate H.
Qed.

Lemma C5_witness_proposals :
  DynamipsNodes.get_idlepcs "R1" (Sample.initial Sample.e0)
  = (Ok ["0x60606060"; "0x60a0b0c0"],
     @World Engine.model
       [Called (Router_set_idlepc "R1" "0x0"); Called (Router_get_idle_pc_prop "R1")]
       (snd (Engine.apply_idlepc "R1" "0x0" Sample.e0)))
  /\ Engine.idlepc_of Sample.e0 "R1" = Some (VStr "0x60606060")
  /\ Engine.idlepc_of (snd (Engine.apply_idlepc "R1" "0x0" Sample.e0)) "R1"
     = Some (VStr "0x0").
Proof.
  assert (H1 : handle Engine.model (Router_set_idlepc "R1" "0x0") Sample.e0
               = (Ok tt, snd (Engine.apply_idlepc "R1" "0x0" Sample.e0))) by by_run.
  assert (H2 : handle Engine.model (Router_get_idle_pc_prop "R1")
                 (snd (Engine.apply_idlepc "R1" "0x0" Sample.e0))
               = (Ok ["0x60606060"; "0x60a0b0c0"],
                  snd (Engine.apply_idlepc "R1" "0x0" Sample.e0))) by by_run.
  destruct (C5_get_idlepcs_resets_idlepc Engine.model "R1" [] _ _ _ _ _ H1 H2)
    as [Hrun Hengine].
  split; [exact Hrun|]. split; [by_run|].
  destruct (Hengine Sample.e0 (Sample.router1 Engine.DEFINED) []) as (w' & Hw' & Hidle & _);
    [by_run | by_run |].
  rewrite Hrun in Hw'. inversion Hw'; subst w'. exact Hidle.
Defined.

(** ** Dynamips router: packet capture *)

Section StartCapture.
Import Engine.
Context {B : Backend} (R : Runtime).

Lemma start_capture_run (a p : Z) (nc : NodeCapture) (node : node_ref)
    (t : list event) (s s1 s2 : bstate B) (d : string) (r : result unit) :
  handle B (Project_capture_working_directory node) s = (Ok d, s1) ->
  handle B (Router_start_capture node a p
              (os_path_join R d (capture_file_name nc)) (data_link_type nc)) s1
  = (r, s2) ->
  DynamipsNodes.start_capture R a p nc node (World t s)
  = if startswith "win" (sys_platform R)
       && negb (is_ascii (os_path_join R d (capture_file_name nc)))
    then (Raise (DynamipsNodes.capture_path_error (os_path_join R d (capture_file_name nc))),
          World (t ++ [Called (Project_capture_working_directory node)]) s1)
    else (match r with
          | Ok _ => Ok (VDict [("pcap_file_path",
                                VStr (os_path_join R d (capture_file_name nc)))])
          | Raise x => Raise x
          end,
          World (t ++ [Called (Project_capture_working_directory node);
                       Called (Router_start_capture node a p
                                 (os_path_join R d (capture_file_name nc))
                                 (data_link_type nc))]) s2).
Proof.
  intros Hd Hc. unfold DynamipsNodes.start_capture.
  rewrite (bind_ok _ _ _ _ _ (perform_as _ _ _ _ _ Hd)).
  unfold bind at 1.
  destruct (startswith "win" (sys_platform R)); simpl.
  - unfold try_except, bind, lift_result, encode_ascii.
    destruct (is_ascii (os_path_join R d (capture_file_name nc))); simpl.
    + rewrite (perform_as _ _ _ _ _ Hc), <- app_assoc. destruct r; reflexivity.
    + reflexivity.
  - unfold bind. rewrite (perform_as _ _ _ _ _ Hc), <- app_assoc.
    destruct r; reflexivity.
Qed.

End StartCapture.

(** C10.  On a platform whose name starts with "win", when the capture
    directory joined with the capture file name has a non-ASCII character,
    [start_capture] raises [DynamipsError]; the only call made is the one
    that reads the capture directory, so no capture is started, and the
    backend is in the state that call left; with the engine, whose
    directory accessor only reads, the state is the one before the request.
    On any other platform the path is handed to the node's [start_capture]
    as it is, ASCII or not, and the outcome is that call's. *)
Theorem C10_start_capture_windows_ascii_only :
  forall (B : Backend) (R : Runtime) (a p : Z) (nc : NodeCapture) (node : node_ref)
         (t : list event) (s s1 : bstate B) (d : string),
    handle B (Project_capture_working_directory node) s = (Ok d, s1) ->
    let pcap_file_path := os_path_join R d (capture_file_name nc) in
    (startswith "win" (sys_platform R) = true ->
     is_ascii pcap_file_path = false ->
     DynamipsNodes.start_capture R a p nc node (World t s)
     = (Raise (DynamipsError ("The capture file path " +:+ dquote +:+ pcap_file_path
                              +:+ dquote +:+ " must only contain ASCII (English) characters")),
        World (t ++ [Called (Project_capture_working_directory node)]) s1))
    /\ (startswith "win" (sys_platform R) = false ->
        forall (r : result unit) (s2 : bstate B),
          handle B (Router_start_capture node a p pcap_file_path (data_link_type nc)) s1
          = (r, s2) ->
          DynamipsNodes.start_capture R a p nc node (World t s)
          = (match r with
             | Ok _ => Ok (VDict [("pcap_file_path", VStr pcap_file_path)])
             | Raise x => Raise x
             end,
             World (t ++ [Called (Project_capture_working_directory node);
                          Called (Router_start_capture node a p pcap_file_path
                                    (data_link_type nc))]) s2))
    /\ (forall (e : Engine.engine) (nd : Engine.node) (t' : list event),
          Engine.nodes e !! node = Some nd ->
          startswith "win" (sys_platform R) = true ->
          is_ascii (os_path_join R (Engine.capture_directory (Engine.env e))
                      (capture_file_name nc)) = false ->
          exists msg,
            DynamipsNodes.start_capture R a p nc node (@World Engine.model t' e)
            = (Raise (DynamipsError msg),
               @World Engine.model
                 (t' ++ [Called (Project_capture_working_directory node)]) e)).
Proof.
  intros B R a p nc node t s s1 d Hd path. repeat apply conj.
  - intros Hwin Hascii.
    destruct (handle B (Router_start_capture node a p path (data_link_type nc)) s1)
      as [r s2] eqn:Hc.
    rewrite (start_capture_run R a p nc node t s s1 s2 d r Hd Hc).
    fold path. rewrite Hwin, Hascii. reflexivity.
  - intros Hwin r s2 Hc.
    rewrite (start_capture_run R a p nc node t s s1 s2 d r Hd Hc).
    rewrite Hwin. reflexivity.
  - intros e nd t' Hnd Hwin Hascii.
    set (d' := Engine.capture_directory (Engine.env e)) in *.
    assert (Hd' : handle Engine.model (Project_capture_working_directory node) e = (Ok d', e)).
    { simpl. unfold Engine.on_node. rewrite Hnd. reflexivity. }
    destruct (handle Engine.model
                (Router_start_capture node a p (os_path_join R d' (capture_file_name nc))
                   (data_link_type nc)) e) as [r s2] eqn:Hc.
    eexists.
    rewrite (start_capture_run (B:=Engine.model) R a p nc node t' e e s2 d' r Hd' Hc).
    rewrite Hwin, Hascii. reflexivity.
Qed.

Lemma C10_witness_windows_and_linux :
  DynamipsNodes.start_capture Sample.win32 0 0 Sample.capture_request "R1"
    (Sample.initial Sample.e0)
  = (Raise (DynamipsError
              ("The capture file path " +:+ dquote +:+ "/tmp/captures" +:+ Sample.backslash
               +:+ Sample.non_ascii_name
               +:+ dquote +:+ " must only contain ASCII (English) characters")),
     @World Engine.model [Called (Project_capture_working_directory "R1")] Sample.e0)
  /\ fst (DynamipsNodes.start_capture Sample.linux 0 0 Sample.capture_request "R1"
            (Sample.initial Sample.e0))
     = Ok (VDict [("pcap_file_path", VStr ("/tmp/captures/" +:+ Sample.non_ascii_name))]).
Proof.
  assert (Hd : handle Engine.model (Project_capture_working_directory "R1") Sample.e0
               = (Ok "/tmp/captures", Sample.e0)) by by_run.
  split.
  - destruct (C10_start_capture_windows_ascii_only Engine.model Sample.win32 0 0
                Sample.capture_request "R1" [] _ _ _ Hd) as (Hwin & _ & Hengine).
    destruct (Hengine Sample.e0 (Sample.router1 Engine.DEFINED) []) as [msg Hmsg];
      [by_run | by_run | by_run |].
    apply Hwin; by_run.
  - destruct (C10_start_capture_windows_ascii_only Engine.model Sample.linux 0 0
                Sample.capture_request "R1" [] _ _ _ Hd) as (_ & Hlinux & _).
    unfold Sample.initial.
    rewrite (Hlinux eq_refl (Ok tt)
               (snd (Engine.start_capture "R1" 0 0
                       ("/tmp/captures/" +:+ Sample.non_ascii_name)
                       (VStr "DLT_EN10MB") Sample.e0))); [reflexivity | by_run].
Defined.

(** ** Ethernet hub: the adapter number *)

(** C9.  The Ethernet hub endpoints that address a slot do not look at
    [adapter_number]: two requests that differ in nothing else have the same
    response and leave the same world, whatever the backend. *)
Theorem C9_hub_adapter_number_ignored :
  forall (B : Backend) (R : Runtime) (adapter_number adapter_number' port_number : Z)
         (nio_data : dict) (node_capture_data : NodeCapture) (node : node_ref)
         (w : world B),
    EthernetHubNodes.create_nio adapter_number port_number nio_data node w
    = EthernetHubNodes.create_nio adapter_number' port_number nio_data node w
    /\ EthernetHubNodes.delete_nio adapter_number port_number node w
       = EthernetHubNodes.delete_nio adapter_number' port_number node w
    /\ EthernetHubNodes.start_capture R adapter_number port_number node_capture_data node w
       = EthernetHubNodes.start_capture R adapter_number' port_number node_capture_data node w
    /\ EthernetHubNodes.stop_capture adapter_number port_number node w
       = EthernetHubNodes.stop_capture adapter_number' port_number node w
    /\ EthernetHubNodes.stream_pcap_file adapter_number port_number node w
       = EthernetHubNodes.stream_pcap_file adapter_number' port_number node w.
Proof.
  intros. repeat apply conj; reflexivity.
Qed.

(** ** Dynamips router: NIO update *)

Section UpdateNio.
Import Engine.

Lemma with_slots_same (nd : Engine.node) : with_slots (node_slots nd) nd = nd.
Proof. destruct nd; reflexivity. Qed.

Lemma lookup_slot_ok (n : string) (a p : Z) (e : engine) (nd : Engine.node) (r : positive) :
  nodes e !! n = Some nd ->
  in_range nd a p = true ->
  node_slots nd !! (a, p) = Some r ->
  lookup_slot n a p e = (Ok r, e).
Proof.
  intros Hnd Hin Hslot. unfold lookup_slot, on_node.
  rewrite Hnd, Hin, Hslot. reflexivity.
Qed.

(** Replacing the NIO of a slot by itself leaves the table and the registry
    as they are; the capture session of the NIO ends with the unbind. *)
Lemma replace_slot_same (n : string) (a p : Z) (e : engine) (nd : Engine.node)
    (r : positive) :
  nodes e !! n = Some nd ->
  in_range nd a p = true ->
  node_slots nd !! (a, p) = Some r ->
  is_Some (nios e !! r) ->
  replace_slot n a p r e = (Ok r, set_captures (delete r) e).
Proof.
  intros Hnd Hin Hslot [o Ho].
  unfold replace_slot, unbind_slot, on_node. rewrite Hnd, Hin, Hslot. simpl.
  unfold bind_slot, on_node. simpl. rewrite lookup_insert_eq.
  change (in_range (with_slots (delete (a, p) (node_slots nd)) nd) a p)
    with (in_range nd a p).
  rewrite Hin. simpl. rewrite lookup_delete_eq, Ho.
  f_equal. unfold set_captures, set_nodes, with_slots. simpl. f_equal.
  rewrite insert_insert_eq, insert_delete_eq, (insert_id (node_slots nd) _ _ Hslot).
  replace (Node _ _ _ _ _ _ _ _) with nd by (destruct nd; reflexivity).
  apply insert_id. exact Hnd.
Qed.

Lemma alter_filters (m : gmap positive nio) (r : positive) (o : nio) (v : value) :
  m !! r = Some o ->
  alter (fun o => Nio (lport o) (rhost o) (rport o) v) r m
  = <[r := Nio (lport o) (rhost o) (rport o) v]> m.
Proof.
  intros Ho. apply map_eq. intros i. destruct (decide (r = i)) as [->|Hne].
  - rewrite lookup_alter_eq, lookup_insert_eq, Ho. reflexivity.
  - rewrite lookup_alter_ne, lookup_insert_ne by exact Hne. reflexivity.
Qed.

Lemma update_nio_calls {B : Backend} (a p : Z) (d : dict) (node : node_ref)
    (w w' : world B) (j : value) :
  DynamipsNodes.update_nio a p d node w = (Ok j, w') ->
  exists nio : positive,
    fst (handle B (Router_get_nio node a p) (backend w)) = Ok nio /\
    calls w'
    = calls w ++ Called (Router_get_nio node a p)
        :: (if truthy (attr d "filters")
            then [Called (NIO_set_filters nio (attr d "filters"))] else [])
        ++ [Called (Router_slot_update_nio_binding node a p nio); Called (NIO_json nio)].
Proof.
  unfold DynamipsNodes.update_nio. intros H.
  apply bind_inv_ok in H as (nio & w1 & H1 & H).
  apply bind_inv_ok in H as ([] & w2 & H2 & H).
  apply bind_inv_ok in H as ([] & w3 & H3 & H4).
  apply perform_inv in H1 as [H1 L1], H3 as [H3 L3], H4 as [H4 L4].
  exists nio. split; [rewrite H1; reflexivity|].
  rewrite L4, L3.
  destruct (truthy (attr d "filters")).
  - apply perform_inv in H2 as [H2 L2]. rewrite L2, L1.
    rewrite <- !app_assoc. reflexivity.
  - inversion H2; subst w2. rewrite L1. rewrite <- !app_assoc. reflexivity.
Qed.

Lemma update_nio_tail (node : node_ref) (a p : Z) (old : positive) (e1 : engine)
    (nd : Engine.node) (o' : nio) (t1 : list event) :
  nodes e1 !! node = Some nd ->
  in_range nd a p = true ->
  node_slots nd !! (a, p) = Some old ->
  nios e1 !! old = Some o' ->
  bind (perform (B:=Engine.model) (Router_slot_update_nio_binding node a p old))
    (fun _ => perform (NIO_json old)) (@World Engine.model t1 e1)
  = (Ok (nio_document o'),
     @World Engine.model
       ((t1 ++ [Called (Router_slot_update_nio_binding node a p old)])
        ++ [Called (NIO_json old)]) (set_captures (delete old) e1)).
Proof.
  intros Hnd Hin Hslot Ho.
  assert (Hupd : handle Engine.model (Router_slot_update_nio_binding node a p old) e1
                 = (Ok tt, set_captures (delete old) e1)).
  { simpl. unfold discard.
    rewrite (replace_slot_same node a p e1 nd old Hnd Hin Hslot (ex_intro _ o' Ho)).
    reflexivity. }
  assert (Hjson : handle Engine.model (NIO_json old) (set_captures (delete old) e1)
                  = (Ok (nio_document o'), set_captures (delete old) e1)).
  { simpl. unfold nio_json. simpl. rewrite Ho. reflexivity. }
  rewrite (bind_ok _ _ _ _ _ (perform_as (B:=Engine.model) _ _ _ _ _ Hupd)).
  exact (perform_as (B:=Engine.model) _ _ _ _ _ Hjson).
Qed.

(** C3, amended.  When [update_nio] returns, it has looked up the NIO bound
    to the slot, assigned the caller's filters to it if they are non-empty,
    handed that same NIO to [slot_update_nio_binding] and asked it for its
    JSON: it has made no other call, so it has created no NIO from the
    caller's payload, unbound none and deleted none.  With the engine, on an
    occupied slot the request returns, the slot holds the same NIO as
    before, with the same local port, remote host and remote port, and its
    filters are the caller's if those are non-empty, the old ones
    otherwise; the registry holds the same NIOs as before. *)
Theorem C3_update_nio_keeps_bound_nio :
  forall (B : Backend) (a p : Z) (d : dict) (node : node_ref)
         (w w' : world B) (j : value),
    DynamipsNodes.update_nio a p d node w = (Ok j, w') ->
    (exists nio : positive,
       fst (handle B (Router_get_nio node a p) (backend w)) = Ok nio /\
       calls w'
       = calls w ++ Called (Router_get_nio node a p)
           :: (if truthy (attr d "filters")
               then [Called (NIO_set_filters nio (attr d "filters"))] else [])
           ++ [Called (Router_slot_update_nio_binding node a p nio);
               Called (NIO_json nio)])
    /\ (forall (e : engine) (nd : Engine.node) (old : positive) (o : nio)
               (t : list event),
          nodes e !! node = Some nd ->
          in_range nd a p = true ->
          node_slots nd !! (a, p) = Some old ->
          nios e !! old = Some o ->
          let o' := Nio (lport o) (rhost o) (rport o)
                      (if truthy (attr d "filters") then attr d "filters" else filters o) in
          exists v' : world Engine.model,
            DynamipsNodes.update_nio a p d node (@World Engine.model t e)
            = (Ok (nio_document o'), v') /\
            slot_of (backend v') node a p = Some old /\
            nios (backend v') = <[old := o']> (nios e)).
Proof.
  intros B a p d node w w' j Hrun. split.
  - exact (update_nio_calls a p d node w w' j Hrun).
  - intros e nd old o t Hnd Hin Hslot Ho o'.
    assert (Hget : handle Engine.model (Router_get_nio node a p) e = (Ok old, e))
      by exact (lookup_slot_ok _ _ _ _ _ _ Hnd Hin Hslot).
    unfold DynamipsNodes.update_nio.
    rewrite (bind_ok _ _ _ _ _ (perform_as (B:=Engine.model) _ t _ _ _ Hget)).
    unfold o'. clear o'. destruct (truthy (attr d "filters")).
    + set (o' := Nio (lport o) (rhost o) (rport o) (attr d "filters")).
      set (e1 := set_nios (alter (fun o => Nio (lport o) (rhost o) (rport o)
                                              (attr d "filters")) old) e).
      assert (Hnios1 : nios e1 = <[old := o']> (nios e))
        by (apply alter_filters; exact Ho).
      assert (Ho1 : nios e1 !! old = Some o')
        by (rewrite Hnios1; apply lookup_insert_eq).
      assert (Hset : handle Engine.model (NIO_set_filters old (attr d "filters")) e
                     = (Ok tt, e1)) by reflexivity.
      rewrite (bind_ok _ _ _ _ _ (perform_as (B:=Engine.model) _ _ _ _ _ Hset)).
      eexists. split; [apply (update_nio_tail node a p old e1 nd o' _ Hnd Hin Hslot Ho1)|].
      split; [|exact Hnios1].
      unfold slot_of. simpl. rewrite Hnd. exact Hslot.
    + assert (Hsame : Nio (lport o) (rhost o) (rport o) (filters o) = o)
        by (destruct o; reflexivity).
      rewrite Hsame. unfold bind at 1. simpl.
      eexists. split; [apply (update_nio_tail node a p old e nd o _ Hnd Hin Hslot Ho)|].
      split; [|symmetry; apply insert_id; exact Ho].
      unfold slot_of. simpl. rewrite Hnd. exact Hslot.
Qed.

End UpdateNio.

(** C3, as claimed, fails: slot (0, 0) of R1 holds the tunnel from port 4000;
    the request supplies a tunnel from port 5000; after the update no slot of
    R1 holds a NIO with the supplied descriptor. *)
Lemma C3_counterexample_supplied_nio_not_bound :
  ~ Claimed.update_binds_supplied_nio.
Proof.
  intros H.
  destruct (H Sample.e0 "R1" 0 0 Sample.udp_request 1%positive
              (Engine.Nio 5000 "10.0.0.2" 5001 (VDict [])) [])
    as (r & Hslot & Hnio); [by_run | by_run |].
  vm_compute in Hslot. inversion Hslot; subst r.
  vm_compute in Hnio. discriminate Hnio.
Qed.

Lemma C3_witness_same_nio_after_update :
  exists v' : world Engine.model,
    DynamipsNodes.update_nio 0 0 Sample.udp_request "R1" (Sample.initial Sample.e0)
    = (Ok (Engine.nio_document Sample.nio1), v') /\
    calls v' = [Called (Router_get_nio "R1" 0 0);
                Called (Router_slot_update_nio_binding "R1" 0 0 1%positive);
                Called (NIO_json 1%positive)] /\
    Engine.slot_of (backend v') "R1" 0 0 = Some 1%positive /\
    Engine.nios (backend v') !! 1%positive = Some Sample.nio1.
Proof.
  assert (Hrun :
    DynamipsNodes.update_nio 0 0 Sample.udp_request "R1" (Sample.initial Sample.e0)
    = (Ok (Engine.nio_document Sample.nio1),
       @World Engine.model
         [Called (Router_get_nio "R1" 0 0);
          Called (Router_slot_update_nio_binding "R1" 0 0 1%positive);
          Called (NIO_json 1%positive)] Sample.e0)) by by_world.
  destruct (C3_update_nio_keeps_bound_nio Engine.model 0 0 Sample.udp_request "R1"
              _ _ _ Hrun) as [(nio & Hget & Hcalls) Hengine].
  destruct (Hengine Sample.e0 (Sample.router1 Engine.DEFINED) 1%positive Sample.nio1 [])
    as (v' & Hv' & Hslot & Hnios); [by_run | by_run | by_run | by_run |].
  exists v'. split; [exact Hv'|].
  unfold Sample.initial in Hrun. rewrite Hrun in Hv'. inversion Hv'; subst v'.
  split; [reflexivity|]. split; [exact Hslot|].
  rewrite Hnios. by_run.
Defined.

(** ** Binding and unbinding a NIO *)

Section BindUnbind.
Import Engine.

Lemma bind_slot_inv (n : string) (a p : Z) (r : positive) (e e1 : engine) (u : unit) :
  bind_slot n a p r e = (Ok u, e1) ->
  exists nd,
    nodes e !! n = Some nd /\ in_range nd a p = true /\
    node_slots nd !! (a, p) = None /\ is_Some (nios e !! r) /\
    e1 = set_nodes (insert n (with_slots (<[(a, p) := r]> (node_slots nd)) nd)) e.
Proof.
  unfold bind_slot, on_node. destruct (nodes e !! n) as [nd|] eqn:Hnd; [|discriminate].
  destruct (in_range nd a p) eqn:Hin; simpl; [|discriminate].
  destruct (node_slots nd !! (a, p)) eqn:Hslot; [discriminate|].
  destruct (nios e !! r) eqn:Hr; [|discriminate].
  intros H. inversion H; subst. exists nd. repeat split; eauto.
Qed.

Lemma unbind_slot_ok (n : string) (a p : Z) (r : positive) (e : engine)
    (nd : Engine.node) :
  nodes e !! n = Some nd ->
  in_range nd a p = true ->
  node_slots nd !! (a, p) = Some r ->
  unbind_slot n a p e
  = (Ok r, set_captures (delete r)
             (set_nodes (insert n (with_slots (delete (a, p) (node_slots nd)) nd)) e)).
Proof.
  intros Hnd Hin Hslot. unfold unbind_slot, on_node.
  rewrite Hnd, Hin, Hslot. reflexivity.
Qed.

(** The table alone: what [bind] put in a slot is what [unbind] takes out. *)
Lemma bind_then_unbind (n : string) (a p : Z) (r : positive) (e e1 : engine) (u : unit) :
  bind_slot n a p r e = (Ok u, e1) ->
  exists e2, unbind_slot n a p e1 = (Ok r, e2) /\ slot_of e2 n a p = None
             /\ nios e2 = nios e.
Proof.
  intros H. apply bind_slot_inv in H as (nd & Hnd & Hin & Hfree & Hr & ->).
  eexists. split.
  - apply unbind_slot_ok with (nd := with_slots (<[(a, p) := r]> (node_slots nd)) nd).
    + simpl. apply lookup_insert_eq.
    + exact Hin.
    + simpl. apply lookup_insert_eq.
  - split; [|reflexivity].
    unfold slot_of. simpl. rewrite lookup_insert_eq. simpl. apply lookup_delete_eq.
Qed.

Lemma nio_create_inv (d : dict) (e e1 : engine) (r : positive) :
  nio_create d e = (Ok r, e1) ->
  exists o, parse_descriptor d = Some o /\ r = fresh (used_refs e) /\
            e1 = set_nios (insert r o) e.
Proof.
  unfold nio_create. destruct (parse_descriptor d) as [o|]; [|discriminate].
  intros H. inversion H; subst. exists o. repeat split.
Qed.

(** C4.  When [create_nio] on a slot has returned, the NIO it bound is the
    very object the manager created for the request (the log shows the same
    NIO created, bound and serialised; it is a new one, distinct from every
    NIO in use before), and unbinding that slot returns exactly that NIO:
    [slot_remove_nio_binding] answers with it, and [delete_nio] on the slot
    returns, having unbound and deleted that NIO and no other. *)
Theorem C4_bind_then_unbind_returns_bound_nio :
  forall (e : engine) (node : node_ref) (a p : Z) (nio_data : dict)
         (t : list event) (j : value) (w1 : world Engine.model),
    DynamipsNodes.create_nio a p nio_data node (@World Engine.model t e) = (Ok j, w1) ->
    exists r : positive,
      calls w1 = t ++ [Called (Dynamips_create_nio node nio_data);
                       Called (Router_slot_add_nio_binding node a p r);
                       Called (NIO_json r)] /\
      (r ∉ used_refs e) /\
      slot_of (backend w1) node a p = Some r /\
      fst (handle Engine.model (Router_slot_remove_nio_binding node a p) (backend w1))
      = Ok r /\
      exists w2 : world Engine.model,
        DynamipsNodes.delete_nio a p node w1 = (Ok tt, w2) /\
        calls w2 = calls w1 ++ [Called (Router_slot_remove_nio_binding node a p);
                                Called (NIO_delete r)] /\
        slot_of (backend w2) node a p = None /\
        nios (backend w2) !! r = None.
Proof.
  intros e node a p d t j w1 Hrun.
  unfold DynamipsNodes.create_nio in Hrun.
  apply bind_inv_ok in Hrun as (r & wa & Ha & Hrun).
  apply bind_inv_ok in Hrun as (u & wb & Hb & Hc).
  apply perform_inv in Ha as [Ha La], Hb as [Hb Lb], Hc as [Hc Lc].
  simpl in Ha, Hb, Hc, La.
  apply nio_create_inv in Ha as (o & Hparse & Hfresh & Hea).
  assert (Hjs : backend w1 = backend wb).
  { unfold nio_json in Hc. destruct (nios (backend wb) !! r); inversion Hc; reflexivity. }
  pose proof (bind_then_unbind _ _ _ _ _ _ _ Hb) as (e2 & Hunbind & Hempty & Hnios2).
  pose proof Hb as Hb'.
  apply bind_slot_inv in Hb' as (nd & Hnd & Hin & Hfree & Hr & Heb).
  exists r. split; [|split; [|split; [|split]]].
  - rewrite Lc, Lb, La, <- !app_assoc. reflexivity.
  - rewrite Hfresh. apply is_fresh.
  - rewrite Hjs, Heb. unfold slot_of. simpl. rewrite lookup_insert_eq. simpl.
    apply lookup_insert_eq.
  - rewrite Hjs. simpl. rewrite Hunbind. reflexivity.
  - assert (Hr2 : is_Some (nios e2 !! r)).
    { rewrite Hnios2, Hea. simpl. rewrite lookup_insert_eq. eauto. }
    destruct Hr2 as [o2 Ho2].
    destruct w1 as [t1 e1]. simpl in Hjs. subst e1.
    eexists. split; [|split; [|split]].
    + unfold DynamipsNodes.delete_nio.
      assert (Hrem : handle Engine.model (Router_slot_remove_nio_binding node a p)
                       (backend wb) = (Ok r, e2)) by exact Hunbind.
      rewrite (bind_ok _ _ _ _ _ (perform_as (B:=Engine.model) _ _ _ _ _ Hrem)).
      rewrite perform_run. simpl. unfold nio_delete. rewrite Ho2. simpl.
      rewrite <- app_assoc. reflexivity.
    + reflexivity.
    + simpl. exact Hempty.
    + simpl. apply lookup_delete_eq.
Qed.

End BindUnbind.

Lemma C4_witness_create_then_delete :
  exists (j : value) (w1 w2 : world Engine.model),
    DynamipsNodes.create_nio 0 2 Sample.udp_request "R1" (Sample.initial Sample.e0)
    = (Ok j, w1) /\
    Engine.slot_of (backend w1) "R1" 0 2 = Some 3%positive /\
    DynamipsNodes.delete_nio 0 2 "R1" w1 = (Ok tt, w2) /\
    calls w2 = [Called (Dynamips_create_nio "R1" Sample.udp_request);
                Called (Router_slot_add_nio_binding "R1" 0 2 3%positive);
                Called (NIO_json 3%positive);
                Called (Router_slot_remove_nio_binding "R1" 0 2);
                Called (NIO_delete 3%positive)].
Proof.
  assert (Hrun :
    DynamipsNodes.create_nio 0 2 Sample.udp_request "R1" (Sample.initial Sample.e0)
    = (Ok (Engine.nio_document (Engine.Nio 5000 "10.0.0.2" 5001 (VDict []))),
       @World Engine.model
         [Called (Dynamips_create_nio "R1" Sample.udp_request);
          Called (Router_slot_add_nio_binding "R1" 0 2 3%positive);
          Called (NIO_json 3%positive)]
         (snd (Engine.bind_slot "R1" 0 2 3%positive
                 (snd (Engine.nio_create Sample.udp_request Sample.e0)))))) by by_world.
  destruct (C4_bind_then_unbind_returns_bound_nio Sample.e0 "R1" 0 2 Sample.udp_request
              [] _ _ Hrun) as (r & Hcalls & Hfresh & Hslot & Hrem & w2 & Hdel & Hcalls2 & _).
  assert (Hr : r = 3%positive).
  { vm_compute in Hslot. inversion Hslot. reflexivity. }
  subst r.
  eexists _, _, w2. split; [exact Hrun|]. split; [exact Hslot|]. split; [exact Hdel|].
  rewrite Hcalls2. reflexivity.
Defined.

(** ** Dynamips router: creation and the default chassis *)

Section CreateRouter.
Import DynamipsNodes.
Context {B : Backend}.

Lemma create_router_run (project_id : string) (d : DynamipsCreate)
    (t : list event) (s s1 : bstate B) (r1 : result node_ref) :
  handle B (Dynamips_create_node (VStr (dc_name d)) project_id
              (create_router_node_id d) (create_router_kwargs d)) s = (r1, s1) ->
  create_router project_id d (World t s)
  = match r1 with
    | Ok vm =>
        bind (perform (Dynamips_update_vm_settings vm (create_router_settings d)))
          (fun _ => perform (Node_json vm))
          (World (t ++ [Called (Dynamips_create_node (VStr (dc_name d)) project_id
                                  (create_router_node_id d) (create_router_kwargs d))]) s1)
    | Raise x =>
        (Raise x,
         World (t ++ [Called (Dynamips_create_node (VStr (dc_name d)) project_id
                                (create_router_node_id d) (create_router_kwargs d))]) s1)
    end.
Proof.
  intros Hc. unfold create_router.
  assert (Hpop : pop (encode_DynamipsCreate d) "name"
                 = Ok (VStr (dc_name d), create_router_fields d)).
  { unfold pop, encode_DynamipsCreate. rewrite lookup_insert_eq. reflexivity. }
  rewrite Hpop. unfold bind at 1, lift_result. simpl.
  unfold bind at 1.
  change (perform (Dynamips_create_node _ _ _ _) (World t s))
    with (perform (Dynamips_create_node (VStr (dc_name d)) project_id
                     (create_router_node_id d) (create_router_kwargs d)) (World t s)).
  rewrite (perform_as _ _ _ _ _ Hc).
  destruct r1; reflexivity.
Qed.

Lemma settings_chassis (d : DynamipsCreate) :
  create_router_settings d !! "chassis" = dc_optional d !! "chassis".
Proof.
  unfold create_router_settings, create_router_fields, encode_DynamipsCreate.
  rewrite !lookup_delete_ne by discriminate.
  rewrite !lookup_insert_ne by discriminate. reflexivity.
Qed.

Lemma kwargs_chassis (d : DynamipsCreate) :
  create_router_kwargs d !! "chassis" = Some (default_chassis d).
Proof.
  unfold create_router_kwargs. simpl. rewrite !lookup_insert_ne by discriminate.
  apply lookup_insert_eq.
Qed.

(** C7.  [create_router] calls [create_node] once, first, and when that
    returns a node it hands the request's fields to [update_vm_settings]
    for that node.  When the request has no chassis (unset, null or empty)
    and the platform is c1700, c2600 or c3600, the [chassis] keyword of
    [create_node] is 1720, 2610 or 3640; when the request has no chassis
    and another platform, the keyword is [None], so no chassis is supplied;
    when the request supplies a chassis, the keyword is [None] and the
    chassis travels unchanged in the settings handed to
    [update_vm_settings]. *)
Theorem C7_create_router_default_chassis :
  forall (project_id : string) (d : DynamipsCreate) (t : list event) (s : bstate B),
    let create_call :=
      Dynamips_create_node (VStr (dc_name d)) project_id
        (create_router_node_id d) (create_router_kwargs d) in
    (forall (r1 : result node_ref) (s1 : bstate B),
        handle B create_call s = (r1, s1) ->
        exists (r : result value) (w' : world B) (more : list event),
          create_router project_id d (World t s) = (r, w') /\
          calls w'
          = t ++ Called create_call
              :: match r1 with
                 | Ok vm =>
                     Called (Dynamips_update_vm_settings vm (create_router_settings d))
                     :: more
                 | Raise x => []
                 end) /\
    (truthy (attr (dc_optional d) "chassis") = false ->
       (dc_platform d = "c1700" ->
        create_router_kwargs d !! "chassis" = Some (VStr "1720")) /\
       (dc_platform d = "c2600" ->
        create_router_kwargs d !! "chassis" = Some (VStr "2610")) /\
       (dc_platform d = "c3600" ->
        create_router_kwargs d !! "chassis" = Some (VStr "3640")) /\
       (dc_platform d <> "c1700" -> dc_platform d <> "c2600" -> dc_platform d <> "c3600" ->
        create_router_kwargs d !! "chassis" = Some VNone)) /\
    (forall chassis : value,
       dc_optional d !! "chassis" = Some chassis ->
       truthy chassis = true ->
       create_router_kwargs d !! "chassis" = Some VNone /\
       create_router_settings d !! "chassis" = Some chassis).
Proof.
  intros project_id d t s create_call.
  split; [|split].
  - intros r1 s1 Hc. rewrite (create_router_run project_id d t s s1 r1 Hc).
    destruct r1 as [vm|x].
    + unfold bind. rewrite perform_run. simpl.
      destruct (handle B (Dynamips_update_vm_settings vm (create_router_settings d)) s1)
        as [[u|x] s2]; simpl.
      * rewrite perform_run. do 3 eexists. split; [reflexivity|]. simpl.
        rewrite <- !app_assoc. reflexivity.
      * do 2 eexists. exists []. split; [reflexivity|]. simpl.
        rewrite <- !app_assoc. reflexivity.
    + do 2 eexists. exists []. split; reflexivity.
  - intros Hfalsy. rewrite kwargs_chassis.
    unfold default_chassis. rewrite Hfalsy. simpl.
    repeat split.
    + intros ->. reflexivity.
    + intros ->. reflexivity.
    + intros ->. reflexivity.
    + intros H1 H2 H3. unfold DEFAULT_CHASSIS.
      rewrite !lookup_insert_ne by congruence. rewrite lookup_empty. reflexivity.
  - intros chassis Hc Htruthy. split.
    + rewrite kwargs_chassis. unfold default_chassis, attr.
      rewrite Hc. simpl. rewrite Htruthy. reflexivity.
    + rewrite settings_chassis. exact Hc.
Qed.

End CreateRouter.

Lemma C7_witness_chassis_by_platform :
  DynamipsNodes.create_router_kwargs (Sample.create_request "c1700" None) !! "chassis"
  = Some (VStr "1720") /\
  DynamipsNodes.create_router_kwargs (Sample.create_request "c2600" None) !! "chassis"
  = Some (VStr "2610") /\
  DynamipsNodes.create_router_kwargs (Sample.create_request "c3600" None) !! "chassis"
  = Some (VStr "3640") /\
  DynamipsNodes.create_router_kwargs (Sample.create_request "c7200" None) !! "chassis"
  = Some VNone /\
  (DynamipsNodes.create_router_kwargs (Sample.create_request "c1700" (Some "1751")) !! "chassis"
   = Some VNone /\
   DynamipsNodes.create_router_settings (Sample.create_request "c1700" (Some "1751")) !! "chassis"
   = Some (VStr "1751")) /\
  (exists (r : result value) (w' : world Engine.model) (more : list event),
     DynamipsNodes.create_router "P1" (Sample.create_request "c3600" None)
       (Sample.initial Sample.e0) = (r, w') /\
     calls w'
     = [Called (Dynamips_create_node (VStr "R3") "P1" (VStr "n3")
                  (DynamipsNodes.create_router_kwargs (Sample.create_request "c3600" None)));
        Called (Dynamips_update_vm_settings "n3"
                  (DynamipsNodes.create_router_settings (Sample.create_request "c3600" None)))]
       ++ more /\
     Sample.chassis_of_n3 (backend w') = Some (VStr "3640")).
Proof.
  pose proof (@C7_create_router_default_chassis Engine.model "P1"
                (Sample.create_request "c1700" None) [] Sample.e0) as (_ & H17 & _).
  pose proof (@C7_create_router_default_chassis Engine.model "P1"
                (Sample.create_request "c2600" None) [] Sample.e0) as (_ & H26 & _).
  pose proof (@C7_create_router_default_chassis Engine.model "P1"
                (Sample.create_request "c3600" None) [] Sample.e0) as (Hrun & H36 & _).
  pose proof (@C7_create_router_default_chassis Engine.model "P1"
                (Sample.create_request "c7200" None) [] Sample.e0) as (_ & H72 & _).
  pose proof (@C7_create_router_default_chassis Engine.model "P1"
                (Sample.create_request "c1700" (Some "1751")) [] Sample.e0) as (_ & _ & Hsup).
  destruct (H17 eq_refl) as (K17 & _).
  destruct (H26 eq_refl) as (_ & K26 & _).
  destruct (H36 eq_refl) as (_ & _ & K36 & _).
  destruct (H72 eq_refl) as (_ & _ & _ & K72).
  split; [exact (K17 eq_refl)|]. split; [exact (K26 eq_refl)|].
  split; [exact (K36 eq_refl)|].
  split; [apply K72; discriminate|].
  split; [apply (Hsup (VStr "1751")); by_run|].
  destruct (Hrun (Ok "n3")
              (snd (Engine.create (VStr "R3") "P1" (VStr "n3")
                      (DynamipsNodes.create_router_kwargs
                         (Sample.create_request "c3600" None)) Sample.e0)))
    as (r & w' & more & Hr & Hcalls); [by_run|].
  exists r, w', more. split; [exact Hr|]. split; [exact Hcalls|].
  replace w' with (snd (DynamipsNodes.create_router "P1" (Sample.create_request "c3600" None)
                          (Sample.initial Sample.e0)))
    by (unfold Sample.initial; rewrite Hr; reflexivity).
  by_run.
Defined.

(** ** Status codes *)





(** ** Duplicating a node *)

Section Duplicate.
Import Engine.

Lemma bound_ref_used (e : engine) (n : string) (nd : Engine.node) (s : Z * Z)
    (r : positive) :
  nodes e !! n = Some nd -> node_slots nd !! s = Some r -> r ∈ used_refs e.
Proof.
  intros Hnd Hs. unfold used_refs, bound_refs.
  apply elem_of_union_l, elem_of_union_r, elem_of_union_list.
  exists (map_img (node_slots nd)). split.
  - apply list_elem_of_fmap. exists nd. split; [reflexivity|].
    apply list_elem_of_fmap. exists (n, nd). split; [reflexivity|].
    apply elem_of_map_to_list. exact Hnd.
  - apply elem_of_map_img_2 with s. exact Hs.
Qed.

Lemma copy_nios_lookup_other (l : list (positive * positive)) (m : gmap positive nio)
    (x : positive) :
  x ∉ l.*2 -> copy_nios l m !! x = m !! x.
Proof.
  induction l as [|[old new] l IH]; simpl; [reflexivity|].
  intros Hx. apply not_elem_of_cons in Hx as [Hne Hx].
  destruct (m !! old).
  - rewrite lookup_insert_ne by congruence. apply IH, Hx.
  - apply IH, Hx.
Qed.

Lemma copy_nios_lookup_new (l : list (positive * positive)) (m : gmap positive nio)
    (old new : positive) :
  NoDup l.*2 ->
  (forall x, x ∈ l.*2 -> m !! x = None) ->
  (old, new) ∈ l ->
  copy_nios l m !! new = m !! old.
Proof.
  induction l as [|[o1 n1] l IH]; simpl; intros Hnd Hfresh Hin.
  - apply elem_of_nil in Hin. destruct Hin.
  - apply NoDup_cons in Hnd as [Hn1 Hnd].
    apply elem_of_cons in Hin as [Heq|Hin].
    + inversion Heq; subst o1 n1. destruct (m !! old) as [o|] eqn:Ho.
      * apply lookup_insert_eq.
      * rewrite (copy_nios_lookup_other l m new Hn1).
        apply Hfresh. apply elem_of_cons. left. reflexivity.
    + assert (Hne : n1 <> new).
      { intros ->. apply Hn1. apply list_elem_of_fmap. exists (old, new). split; [reflexivity|exact Hin]. }
      assert (IH' : copy_nios l m !! new = m !! old).
      { apply IH; [exact Hnd | | exact Hin].
        intros x Hx. apply Hfresh. apply elem_of_cons. right. exact Hx. }
      destruct (m !! o1); [rewrite lookup_insert_ne by exact Hne|]; exact IH'.
Qed.

(** The new table: the slots of the source, each with a NIO of its own. *)
Lemma new_slots_lookup (bindings : list ((Z * Z) * positive)) (new_refs : list positive)
    (s : Z * Z) (r' : positive) :
  NoDup bindings.*1 ->
  length new_refs = length bindings ->
  (list_to_map (zip (bindings.*1) new_refs) : gmap (Z * Z) positive) !! s = Some r' <->
  exists i r, bindings !! i = Some (s, r) /\ new_refs !! i = Some r'.
Proof.
  intros Hnd Hlen.
  assert (Hfst : (zip (bindings.*1) new_refs).*1 = bindings.*1).
  { apply fst_zip. rewrite length_fmap. lia. }
  rewrite <- elem_of_list_to_map by (rewrite Hfst; exact Hnd).
  split.
  - intros H. apply elem_of_lookup_zip_with_1 in H as (i & x & y & Heq & Hx & Hy).
    inversion Heq; subst x y.
    rewrite list_lookup_fmap in Hx.
    destruct (bindings !! i) as [[s0 r]|] eqn:Hb; simpl in Hx; [|discriminate].
    inversion Hx; subst s0. exists i, r. split; [exact Hb|exact Hy].
  - intros (i & r & Hb & Hy).
    apply list_elem_of_lookup. exists i.
    rewrite lookup_zip_with, list_lookup_fmap, Hb, Hy. reflexivity.
Qed.

Lemma duplicate_run (source destination : string) (e : engine) (nd : Engine.node) :
  nodes e !! source = Some nd ->
  nodes e !! destination = None ->
  duplicate source destination e
  = (Ok destination,
     set_nios (copy_nios (zip ((map_to_list (node_slots nd)).*2)
                            (fresh_list (length (map_to_list (node_slots nd))) (used_refs e))))
       (set_nodes
          (insert destination
             (with_state DEFINED
                (with_slots
                   (list_to_map
                      (zip ((map_to_list (node_slots nd)).*1)
                         (fresh_list (length (map_to_list (node_slots nd))) (used_refs e))))
                   nd))) e)).
Proof.
  intros Hsrc Hdst. unfold duplicate, on_node. rewrite Hsrc.
  rewrite bool_decide_eq_false_2; [reflexivity|].
  rewrite elem_of_dom, Hdst. intros [x Hx]. discriminate Hx.
Qed.

(** C6.  Whatever the state of the source node, [duplicate] to an id that
    is not taken returns, for the router and for the hub endpoint alike; the
    new node has the destination id, is [DEFINED], has the name, project,
    kind, cardinality and settings of the source and the same bound slots;
    the NIO of each of its slots is a new one (in use nowhere before, so
    it is none of the source's), carries the descriptor of the source's NIO
    of that slot and has no capture session; no two of its slots share a
    NIO; the source node is as it was. *)
Theorem C6_duplicate_is_fresh_defined_copy :
  forall (e : engine) (source destination : string) (nd : Engine.node) (t : list event),
    nodes e !! source = Some nd ->
    nodes e !! destination = None ->
    exists (j : value) (w' : world Engine.model) (nd' : Engine.node),
      DynamipsNodes.duplicate_router destination source (@World Engine.model t e)
      = (Ok j, w') /\
      EthernetHubNodes.duplicate_ethernet_hub destination source (@World Engine.model t e)
      = (Ok j, w') /\
      nodes (backend w') !! destination = Some nd' /\
      nodes (backend w') !! source = Some nd /\
      node_state nd' = DEFINED /\
      (node_name nd', node_project nd', node_kind nd', node_adapters nd', node_ports nd',
       node_settings nd')
      = (node_name nd, node_project nd, node_kind nd, node_adapters nd, node_ports nd,
         node_settings nd) /\
      dom (node_slots nd') = dom (node_slots nd) /\
      (forall (s : Z * Z) (r' : positive),
          node_slots nd' !! s = Some r' ->
          (r' ∉ used_refs e) /\
          (forall (s0 : Z * Z) (r0 : positive), node_slots nd !! s0 = Some r0 -> r' <> r0) /\
          captures (backend w') !! r' = None /\
          exists r : positive,
            node_slots nd !! s = Some r /\ nios (backend w') !! r' = nios e !! r) /\
      (forall (s1 s2 : Z * Z) (r' : positive),
          node_slots nd' !! s1 = Some r' -> node_slots nd' !! s2 = Some r' -> s1 = s2).
Proof.
  intros e source destination nd t Hsrc Hdst.
  pose proof (duplicate_run source destination e nd Hsrc Hdst) as Hdup.
  set (bindings := map_to_list (node_slots nd)) in *.
  set (new_refs := fresh_list (length bindings) (used_refs e)) in *.
  set (new_slots := (list_to_map (zip (bindings.*1) new_refs) : gmap (Z * Z) positive)) in *.
  set (nd' := with_state DEFINED (with_slots new_slots nd)) in *.
  set (e' := set_nios (copy_nios (zip (bindings.*2) new_refs))
               (set_nodes (insert destination nd') e)) in *.
  assert (Hlen : length new_refs = length bindings) by apply length_fresh_list.
  assert (Hnodup : NoDup new_refs) by apply NoDup_fresh_list.
  assert (Hfresh : forall x, x ∈ new_refs -> x ∉ used_refs e)
    by (intros x; apply fresh_list_is_fresh).
  assert (Hkeys : NoDup bindings.*1) by apply NoDup_fst_map_to_list.
  assert (Hne : source <> destination) by (intros ->; congruence).
  assert (Hnd' : nodes e' !! destination = Some nd') by apply lookup_insert_eq.
  assert (Hcall : handle Engine.model (Dynamips_duplicate_node source destination) e
                  = (Ok destination, e')) by exact Hdup.
  assert (Hjson : exists j, handle Engine.model (Node_json destination) e' = (Ok j, e')).
  { simpl. unfold node_json, on_node. rewrite Hnd'. eexists. reflexivity. }
  destruct Hjson as [j Hjson].
  assert (Hrun : DynamipsNodes.duplicate_router destination source (@World Engine.model t e)
                 = (Ok j, @World Engine.model
                            ((t ++ [Called (Dynamips_duplicate_node source destination)])
                             ++ [Called (Node_json destination)]) e')).
  { unfold DynamipsNodes.duplicate_router.
    rewrite (bind_ok _ _ _ _ _ (perform_as (B:=Engine.model) _ _ _ _ _ Hcall)).
    exact (perform_as (B:=Engine.model) _ _ _ _ _ Hjson). }
  exists j, (@World Engine.model
               ((t ++ [Called (Dynamips_duplicate_node source destination)])
                ++ [Called (Node_json destination)]) e'), nd'.
  split; [exact Hrun|]. split; [exact Hrun|]. split; [exact Hnd'|].
  split; [simpl; rewrite lookup_insert_ne by congruence; exact Hsrc|].
  split; [reflexivity|]. split; [reflexivity|].
  split; [|split].
  - simpl. unfold new_slots. rewrite dom_list_to_map_L.
    rewrite fst_zip by (rewrite length_fmap; lia).
    unfold bindings. rewrite <- dom_list_to_map_L, list_to_map_to_list. reflexivity.
  - intros s r' Hs. simpl in Hs.
    apply (new_slots_lookup bindings new_refs s r' Hkeys Hlen) in Hs as (i & r & Hb & Hn).
    assert (Hin : r' ∈ new_refs) by (apply list_elem_of_lookup; eauto).
    assert (Hslot : node_slots nd !! s = Some r).
    { apply elem_of_map_to_list. apply list_elem_of_lookup. eauto. }
    split; [exact (Hfresh r' Hin)|]. split; [|split].
    + intros s0 r0 H0 ->. apply (Hfresh r0 Hin).
      exact (bound_ref_used e source nd s0 r0 Hsrc H0).
    + simpl. apply not_elem_of_dom. intros Hc. apply (Hfresh r' Hin).
      unfold used_refs. apply elem_of_union_r. exact Hc.
    + exists r. split; [exact Hslot|]. simpl.
      apply copy_nios_lookup_new.
      * rewrite snd_zip by (rewrite length_fmap; lia). exact Hnodup.
      * rewrite snd_zip by (rewrite length_fmap; lia).
        intros x Hx. apply not_elem_of_dom. intros Hc. apply (Hfresh x Hx).
        unfold used_refs. apply elem_of_union_l, elem_of_union_l. exact Hc.
      * apply list_elem_of_lookup. exists i.
        rewrite lookup_zip_with, list_lookup_fmap, Hb, Hn. reflexivity.
  - intros s1 s2 r' H1 H2. simpl in H1, H2.
    apply (new_slots_lookup bindings new_refs s1 r' Hkeys Hlen) in H1 as (i1 & r1 & Hb1 & Hn1).
    apply (new_slots_lookup bindings new_refs s2 r' Hkeys Hlen) in H2 as (i2 & r2 & Hb2 & Hn2).
    assert (i1 = i2) by exact (NoDup_lookup _ _ _ _ Hnodup Hn1 Hn2). subst i2.
    rewrite Hb1 in Hb2. inversion Hb2. reflexivity.
Qed.

End Duplicate.

(** The running router R1, with two bound slots, duplicated to R2. *)
Lemma C6_witness_running_router_duplicated :
  exists (j : value) (w' : world Engine.model) (nd' : Engine.node),
    DynamipsNodes.duplicate_router "R2" "R1" (Sample.initial Sample.e_running) = (Ok j, w') /\
    Engine.state_of Sample.e_running "R1" = Some Engine.RUNNING /\
    Engine.nodes (backend w') !! "R2" = Some nd' /\
    Engine.node_state nd' = Engine.DEFINED /\
    Engine.node_slots nd' !! (0, 0) = Some 4%positive /\
    Engine.node_slots nd' !! (0, 1) = Some 3%positive /\
    Engine.nios (backend w') !! 4%positive = Some Sample.nio1 /\
    Engine.nios (backend w') !! 3%positive = Some Sample.nio2.
Proof.
  destruct (C6_duplicate_is_fresh_defined_copy Sample.e_running "R1" "R2"
              (Sample.router1 Engine.RUNNING) [])
    as (j & w' & nd' & Hrun & _ & Hnd' & _ & Hstate & _); [by_run | by_run |].
  exists j, w', nd'. split; [exact Hrun|]. split; [by_run|].
  split; [exact Hnd'|]. split; [exact Hstate|].
  assert (Hw : backend w'
               = snd (Engine.duplicate "R1" "R2" Sample.e_running)).
  { unfold Sample.initial in Hrun.
    change (backend w') with (backend (snd (Ok j, w'))). rewrite <- Hrun. by_run. }
  rewrite Hw in Hnd'.
  assert (Hnd2 : Engine.nodes (snd (Engine.duplicate "R1" "R2" Sample.e_running)) !! "R2"
                 = Some (Engine.Node "R1" "P1" Engine.KRouter Engine.DEFINED 2 4
                           (<[(0, 0) := 4%positive]> (<[(0, 1) := 3%positive]> ∅))
                           (<["idlepc" := VStr "0x60606060"]> ∅))) by by_run.
  rewrite Hnd2 in Hnd'. inversion Hnd'; subst nd'. rewrite Hw.
  repeat split; by_run.
Defined.

(** * Further properties of the endpoints *)

(** ** Dynamips router: what creation hands to the manager *)

Section CreateRouterArguments.
Import DynamipsNodes.
Context {B : Backend}.

Lemma create_router_first_call (project_id : string) (d : DynamipsCreate) (w : world B) :
  exists more : list event,
    calls (snd (create_router project_id d w))
    = calls w ++ Called (Dynamips_create_node (VStr (dc_name d)) project_id
                           (create_router_node_id d) (create_router_kwargs d)) :: more.
Proof.
  destruct w as [t s].
  destruct (handle B (Dynamips_create_node (VStr (dc_name d)) project_id
                        (create_router_node_id d) (create_router_kwargs d)) s)
    as [r1 s1] eqn:Hc.
  rewrite (create_router_run project_id d t s s1 r1 Hc).
  destruct r1 as [vm|x]; [|exists []; reflexivity].
  unfold bind. rewrite perform_run. simpl.
  destruct (handle B (Dynamips_update_vm_settings vm (create_router_settings d)) s1)
    as [[u|x] s2]; simpl.
  - rewrite perform_run. simpl. eexists. rewrite <- !app_assoc. reflexivity.
  - eexists. rewrite <- !app_assoc. reflexivity.
Qed.

Lemma fields_lookup (d : DynamipsCreate) (k : string) :
  k <> "name" -> k <> "platform" ->
  create_router_fields d !! k = dc_optional d !! k.
Proof.
  intros H1 H2. unfold create_router_fields, encode_DynamipsCreate.
  rewrite lookup_delete_ne by congruence.
  rewrite !lookup_insert_ne by congruence. reflexivity.
Qed.

(** X1.  The first call of [create_router] is [create_node], with the
    request's name and project, the request's [node_id] (or [None]) and
    exactly eight keywords: [platform] and [node_type] "dynamips",
    [console_type] and [aux_type] as the request sets them and "telnet" and
    "none" only when the request leaves them unset (a field set to null stays
    null), [dynamips_id], [console] and [aux] as the request sets them and
    [None] otherwise, and [chassis]. *)
Theorem X1_create_router_keywords :
  forall (project_id : string) (d : DynamipsCreate) (w : world B),
  exists (kwargs : dict) (more : list event),
    calls (snd (create_router project_id d w))
    = calls w ++ Called (Dynamips_create_node (VStr (dc_name d)) project_id
                           (default VNone (dc_optional d !! "node_id")) kwargs) :: more /\
    dom kwargs
    = list_to_set ["dynamips_id"; "platform"; "console"; "console_type"; "aux";
                   "aux_type"; "chassis"; "node_type"] /\
    kwargs !! "platform" = Some (VStr (dc_platform d)) /\
    kwargs !! "node_type" = Some (VStr "dynamips") /\
    kwargs !! "console_type"
    = Some (default (VStr "telnet") (dc_optional d !! "console_type")) /\
    kwargs !! "aux_type" = Some (default (VStr "none") (dc_optional d !! "aux_type")) /\
    kwargs !! "dynamips_id" = Some (default VNone (dc_optional d !! "dynamips_id")) /\
    kwargs !! "console" = Some (default VNone (dc_optional d !! "console")) /\
    kwargs !! "aux" = Some (default VNone (dc_optional d !! "aux")).
Proof.
  intros project_id d w.
  destruct (create_router_first_call project_id d w) as [more Hcalls].
  exists (create_router_kwargs d), more.
  split.
  { rewrite Hcalls. unfold create_router_node_id, get.
    rewrite fields_lookup by discriminate. reflexivity. }
  unfold create_router_kwargs, get, get_default. simpl.
  rewrite !fields_lookup by discriminate.
  split.
  { rewrite !dom_insert_L, dom_empty_L. simpl. set_solver. }
  repeat split;
    repeat (first [ apply lookup_insert_eq | rewrite lookup_insert_ne by discriminate ]).
Qed.

(** X2.  When [create_node] has returned a node, the next call of
    [create_router] is [update_vm_settings] for that node, with the fields of
    the request except [name] and [aux_type]: those two are taken out, the
    platform and every other field that the request sets are handed on as
    they are, and nothing is added. *)
Theorem X2_create_router_settings :
  forall (project_id : string) (d : DynamipsCreate) (t : list event)
         (s s1 : bstate B) (vm : node_ref),
    handle B (Dynamips_create_node (VStr (dc_name d)) project_id
                (create_router_node_id d) (create_router_kwargs d)) s = (Ok vm, s1) ->
    exists (settings : dict) (more : list event),
      calls (snd (create_router project_id d (World t s)))
      = t ++ [Called (Dynamips_create_node (VStr (dc_name d)) project_id
                        (create_router_node_id d) (create_router_kwargs d));
              Called (Dynamips_update_vm_settings vm settings)] ++ more /\
      settings !! "name" = None /\
      settings !! "aux_type" = None /\
      settings !! "platform" = Some (VStr (dc_platform d)) /\
      (forall k : string,
          k <> "name" -> k <> "aux_type" -> k <> "platform" ->
          settings !! k = dc_optional d !! k).
Proof.
  intros project_id d t s s1 vm Hc.
  exists (create_router_settings d).
  assert (Hlog : exists more,
    calls (snd (create_router project_id d (World t s)))
    = t ++ [Called (Dynamips_create_node (VStr (dc_name d)) project_id
                      (create_router_node_id d) (create_router_kwargs d));
            Called (Dynamips_update_vm_settings vm (create_router_settings d))] ++ more).
  { rewrite (create_router_run project_id d t s s1 (Ok vm) Hc).
    unfold bind. rewrite perform_run. simpl.
    destruct (handle B (Dynamips_update_vm_settings vm (create_router_settings d)) s1)
      as [[u|x] s2]; simpl.
    - rewrite perform_run. simpl. eexists. rewrite <- !app_assoc. reflexivity.
    - exists []. rewrite <- !app_assoc. reflexivity. }
  destruct Hlog as [more Hlog]. exists more. split; [exact Hlog|].
  unfold create_router_settings, create_router_fields, encode_DynamipsCreate.
  split; [|split; [|split]].
  - rewrite lookup_delete_ne by discriminate. apply lookup_delete_eq.
  - apply lookup_delete_eq.
  - rewrite !lookup_delete_ne by discriminate.
    rewrite lookup_insert_ne by discriminate. apply lookup_insert_eq.
  - intros k H1 H2 H3.
    rewrite !lookup_delete_ne by congruence.
    rewrite !lookup_insert_ne by congruence. reflexivity.
Qed.

(** X3.  [create_router] does not undo what it has done: when
    [update_vm_settings] raises after [create_node] has returned, the error
    comes out as it is, the backend is left as the failed call left it (with
    the node that was created), and neither [delete_node] nor any other call
    follows; when it returns, the response is the node's JSON, or the error
    of asking for it. *)
Theorem X3_create_router_no_rollback :
  forall (project_id : string) (d : DynamipsCreate) (t : list event)
         (s s1 s2 s3 : bstate B) (vm : node_ref) (r2 : result unit) (r3 : result value),
    handle B (Dynamips_create_node (VStr (dc_name d)) project_id
                (create_router_node_id d) (create_router_kwargs d)) s = (Ok vm, s1) ->
    handle B (Dynamips_update_vm_settings vm (create_router_settings d)) s1 = (r2, s2) ->
    handle B (Node_json vm) s2 = (r3, s3) ->
    create_router project_id d (World t s)
    = match r2 with
      | Ok _ =>
          (r3, World (t ++ [Called (Dynamips_create_node (VStr (dc_name d)) project_id
                                      (create_router_node_id d) (create_router_kwargs d));
                            Called (Dynamips_update_vm_settings vm (create_router_settings d));
                            Called (Node_json vm)]) s3)
      | Raise x =>
          (Raise x,
           World (t ++ [Called (Dynamips_create_node (VStr (dc_name d)) project_id
                                  (create_router_node_id d) (create_router_kwargs d));
                        Called (Dynamips_update_vm_settings vm (create_router_settings d))])
             s2)
      end.
Proof.
  intros project_id d t s s1 s2 s3 vm r2 r3 H1 H2 H3.
  rewrite (create_router_run project_id d t s s1 (Ok vm) H1).
  unfold bind. rewrite (perform_as _ _ _ _ _ H2).
  destruct r2 as [u|x].
  - rewrite (perform_as _ _ _ _ _ H3), <- !app_assoc. reflexivity.
  - rewrite <- !app_assoc. reflexivity.
Qed.

End CreateRouterArguments.

Lemma X2_witness_settings_of_request :
  exists (settings : dict) (more : list event),
    calls (snd (DynamipsNodes.create_router "P1" (Sample.create_request "c1700" (Some "1751"))
                  (Sample.initial Sample.e0)))
    = [Called (Dynamips_create_node (VStr "R3") "P1" (VStr "n3")
                 (DynamipsNodes.create_router_kwargs
                    (Sample.create_request "c1700" (Some "1751"))));
       Called (Dynamips_update_vm_settings "n3" settings)] ++ more /\
    settings !! "name" = None /\
    settings !! "chassis" = Some (VStr "1751") /\
    settings !! "node_id" = Some (VStr "n3").
Proof.
  destruct (@X2_create_router_settings Engine.model "P1"
              (Sample.create_request "c1700" (Some "1751")) [] Sample.e0
              (snd (Engine.create (VStr "R3") "P1" (VStr "n3")
                      (DynamipsNodes.create_router_kwargs
                         (Sample.create_request "c1700" (Some "1751"))) Sample.e0))
              "n3")
    as (settings & more & Hcalls & Hname & _ & _ & Hrest); [by_run|].
  exists settings, more. split; [exact Hcalls|]. split; [exact Hname|].
  split; [rewrite Hrest by discriminate; by_run | rewrite Hrest by discriminate; by_run].
Defined.

Lemma X3_witness_created_then_configured :
  exists (j : value) (e3 : Engine.engine),
    DynamipsNodes.create_router "P1" (Sample.create_request "c3600" None)
      (Sample.initial Sample.e0)
    = (Ok j,
       @World Engine.model
         [Called (Dynamips_create_node (VStr "R3") "P1" (VStr "n3")
                    (DynamipsNodes.create_router_kwargs (Sample.create_request "c3600" None)));
          Called (Dynamips_update_vm_settings "n3"
                    (DynamipsNodes.create_router_settings (Sample.create_request "c3600" None)));
          Called (Node_json "n3")] e3) /\
    Engine.state_of e3 "n3" = Some Engine.DEFINED.
Proof.
  set (d := Sample.create_request "c3600" None).
  set (e1 := snd (Engine.create (VStr "R3") "P1" (VStr "n3")
                    (DynamipsNodes.create_router_kwargs d) Sample.e0)).
  set (e2 := snd (Engine.update_settings "n3" (DynamipsNodes.create_router_settings d) e1)).
  assert (H1 : handle Engine.model
                 (Dynamips_create_node (VStr (dc_name d)) "P1"
                    (DynamipsNodes.create_router_node_id d)
                    (DynamipsNodes.create_router_kwargs d)) Sample.e0
               = (Ok "n3", e1)) by by_run.
  assert (H2 : handle Engine.model
                 (Dynamips_update_vm_settings "n3" (DynamipsNodes.create_router_settings d)) e1
               = (Ok tt, e2)) by by_run.
  set (j0 := match fst (Engine.node_json "n3" e2) with
             | Ok j => j
             | Raise _ => VNone
             end).
  assert (H3 : handle Engine.model (Node_json "n3") e2 = (Ok j0, e2)) by by_run.
  exists j0, e2. split; [|by_run].
  exact (@X3_create_router_no_rollback Engine.model "P1" d [] _ _ _ _ _ _ _ H1 H2 H3).
Defined.

(** ** Dynamips router and Ethernet hub: NIOs *)

Section NioEndpoints.
Context {B : Backend}.

(** X4.  [create_nio] binds the NIO that the manager has just created and
    answers with that NIO's JSON.  When the binding raises, the error comes
    out as it is and the request ends there: the NIO that was created for it
    is not deleted.  The hub endpoint does the same with [add_nio] on the
    port. *)
Theorem X4_create_nio_binding_failure_keeps_nio :
  forall (a p : Z) (nio_data : dict) (node : node_ref) (t : list event)
         (s s1 : bstate B) (nio : positive),
    handle B (Dynamips_create_nio node nio_data) s = (Ok nio, s1) ->
    (forall (r2 : result unit) (r3 : result value) (s2 s3 : bstate B),
        handle B (Router_slot_add_nio_binding node a p nio) s1 = (r2, s2) ->
        handle B (NIO_json nio) s2 = (r3, s3) ->
        DynamipsNodes.create_nio a p nio_data node (World t s)
        = match r2 with
          | Ok _ =>
              (r3, World (t ++ [Called (Dynamips_create_nio node nio_data);
                                Called (Router_slot_add_nio_binding node a p nio);
                                Called (NIO_json nio)]) s3)
          | Raise x =>
              (Raise x, World (t ++ [Called (Dynamips_create_nio node nio_data);
                                     Called (Router_slot_add_nio_binding node a p nio)]) s2)
          end) /\
    (forall (r2 : result unit) (r3 : result value) (s2 s3 : bstate B),
        handle B (EthernetHub_add_nio node nio p) s1 = (r2, s2) ->
        handle B (NIO_json nio) s2 = (r3, s3) ->
        EthernetHubNodes.create_nio a p nio_data node (World t s)
        = match r2 with
          | Ok _ =>
              (r3, World (t ++ [Called (Dynamips_create_nio node nio_data);
                                Called (EthernetHub_add_nio node nio p);
                                Called (NIO_json nio)]) s3)
          | Raise x =>
              (Raise x, World (t ++ [Called (Dynamips_create_nio node nio_data);
                                     Called (EthernetHub_add_nio node nio p)]) s2)
          end).
Proof.
  intros a p nio_data node t s s1 nio H1. split; intros r2 r3 s2 s3 H2 H3.
  - unfold DynamipsNodes.create_nio.
    rewrite (bind_ok _ _ _ _ _ (perform_as _ _ _ _ _ H1)).
    unfold bind. rewrite (perform_as _ _ _ _ _ H2).
    destruct r2 as [u|x]; [rewrite (perform_as _ _ _ _ _ H3)|];
      rewrite <- !app_assoc; reflexivity.
  - unfold EthernetHubNodes.create_nio.
    rewrite (bind_ok _ _ _ _ _ (perform_as _ _ _ _ _ H1)).
    unfold bind. rewrite (perform_as _ _ _ _ _ H2).
    destruct r2 as [u|x]; [rewrite (perform_as _ _ _ _ _ H3)|];
      rewrite <- !app_assoc; reflexivity.
Qed.

(** X5.  [delete_nio] deletes the NIO that the unbinding returned, and only
    that one, after the unbinding: when the unbinding raises, nothing is
    deleted; when the deletion raises, the error comes out with the slot
    already unbound, and no call binds the NIO again.  The hub endpoint does
    the same with [remove_nio] on the port. *)
Theorem X5_delete_nio_unbinds_then_deletes :
  forall (a p : Z) (node : node_ref) (t : list event) (s : bstate B),
    (forall (r1 : result positive) (s1 : bstate B),
        handle B (Router_slot_remove_nio_binding node a p) s = (r1, s1) ->
        match r1 with
        | Ok nio =>
            forall (r2 : result unit) (s2 : bstate B),
              handle B (NIO_delete nio) s1 = (r2, s2) ->
              DynamipsNodes.delete_nio a p node (World t s)
              = (r2, World (t ++ [Called (Router_slot_remove_nio_binding node a p);
                                  Called (NIO_delete nio)]) s2)
        | Raise x =>
            DynamipsNodes.delete_nio a p node (World t s)
            = (Raise x, World (t ++ [Called (Router_slot_remove_nio_binding node a p)]) s1)
        end) /\
    (forall (r1 : result positive) (s1 : bstate B),
        handle B (EthernetHub_remove_nio node p) s = (r1, s1) ->
        match r1 with
        | Ok nio =>
            forall (r2 : result unit) (s2 : bstate B),
              handle B (NIO_delete nio) s1 = (r2, s2) ->
              EthernetHubNodes.delete_nio a p node (World t s)
              = (r2, World (t ++ [Called (EthernetHub_remove_nio node p);
                                  Called (NIO_delete nio)]) s2)
        | Raise x =>
            EthernetHubNodes.delete_nio a p node (World t s)
            = (Raise x, World (t ++ [Called (EthernetHub_remove_nio node p)]) s1)
        end).
Proof.
  intros a p node t s. split; intros r1 s1 H1.
  - unfold DynamipsNodes.delete_nio, bind.
    rewrite (perform_as _ _ _ _ _ H1). destruct r1 as [nio|x]; [|reflexivity].
    intros r2 s2 H2. rewrite (perform_as _ _ _ _ _ H2), <- !app_assoc. reflexivity.
  - unfold EthernetHubNodes.delete_nio, bind.
    rewrite (perform_as _ _ _ _ _ H1). destruct r1 as [nio|x]; [|reflexivity].
    intros r2 s2 H2. rewrite (perform_as _ _ _ _ _ H2), <- !app_assoc. reflexivity.
Qed.

End NioEndpoints.

(** Slot (0, 0) of R1 is taken: the request fails, and the NIO made for it,
    number 3, stays in the registry, bound nowhere. *)
Lemma X4_witness_occupied_slot_leaves_nio :
  exists e2 : Engine.engine,
    DynamipsNodes.create_nio 0 0 Sample.udp_request "R1" (Sample.initial Sample.e0)
    = (Raise SlotOccupiedError,
       @World Engine.model
         [Called (Dynamips_create_nio "R1" Sample.udp_request);
          Called (Router_slot_add_nio_binding "R1" 0 0 3%positive)] e2) /\
    Engine.slot_of e2 "R1" 0 0 = Some 1%positive /\
    Engine.nios e2 !! 3%positive = Some (Engine.Nio 5000 "10.0.0.2" 5001 (VDict [])) /\
    fst (EthernetHubNodes.create_nio 7 0 Sample.udp_request "H1" (Sample.initial Sample.e0))
    = Ok (Engine.nio_document (Engine.Nio 5000 "10.0.0.2" 5001 (VDict []))).
Proof.
  set (e1 := snd (Engine.nio_create Sample.udp_request Sample.e0)).
  assert (H1 : handle Engine.model (Dynamips_create_nio "R1" Sample.udp_request) Sample.e0
               = (Ok 3%positive, e1)) by by_run.
  assert (H1h : handle Engine.model (Dynamips_create_nio "H1" Sample.udp_request) Sample.e0
               = (Ok 3%positive, e1)) by by_run.
  assert (H2 : handle Engine.model (Router_slot_add_nio_binding "R1" 0 0 3%positive) e1
               = (Raise SlotOccupiedError, e1)) by by_run.
  assert (H3 : handle Engine.model (NIO_json 3%positive) e1
               = (Ok (Engine.nio_document (Engine.Nio 5000 "10.0.0.2" 5001 (VDict []))), e1))
    by by_run.
  set (e2h := snd (Engine.bind_slot "H1" 0 0 3%positive e1)).
  assert (H2h : handle Engine.model (EthernetHub_add_nio "H1" 3%positive 0) e1
               = (Ok tt, e2h)) by by_run.
  assert (H3h : handle Engine.model (NIO_json 3%positive) e2h
               = (Ok (Engine.nio_document (Engine.Nio 5000 "10.0.0.2" 5001 (VDict []))), e2h))
    by by_run.
  destruct (@X4_create_nio_binding_failure_keeps_nio Engine.model 0 0 Sample.udp_request
              "R1" [] _ _ _ H1) as [Hrouter _].
  destruct (@X4_create_nio_binding_failure_keeps_nio Engine.model 7 0 Sample.udp_request
              "H1" [] _ _ _ H1h) as [_ Hhub].
  exists e1. split; [exact (Hrouter _ _ _ _ H2 H3)|].
  split; [by_run|]. split; [by_run|].
  unfold Sample.initial. rewrite (Hhub _ _ _ _ H2h H3h). reflexivity.
Defined.

Lemma X5_witness_delete_bound_and_unbound :
  DynamipsNodes.delete_nio 0 0 "R1" (Sample.initial Sample.e0)
  = (Ok tt,
     @World Engine.model
       [Called (Router_slot_remove_nio_binding "R1" 0 0); Called (NIO_delete 1%positive)]
       (snd (Engine.nio_delete 1%positive (snd (Engine.unbind_slot "R1" 0 0 Sample.e0)))))
  /\ DynamipsNodes.delete_nio 1 3 "R1" (Sample.initial Sample.e0)
     = (Raise NotFoundError,
        @World Engine.model [Called (Router_slot_remove_nio_binding "R1" 1 3)] Sample.e0)
  /\ EthernetHubNodes.delete_nio 7 0 "H1" (Sample.initial Scenario.e_hub_bound)
     = (Ok tt,
        @World Engine.model
          [Called (EthernetHub_remove_nio "H1" 0); Called (NIO_delete 5%positive)]
          (snd (Engine.nio_delete 5%positive
                  (snd (Engine.unbind_slot "H1" 0 0 Scenario.e_hub_bound))))).
Proof.
  assert (H1 : handle Engine.model (Router_slot_remove_nio_binding "R1" 0 0) Sample.e0
               = (Ok 1%positive, snd (Engine.unbind_slot "R1" 0 0 Sample.e0))) by by_run.
  assert (H2 : handle Engine.model (NIO_delete 1%positive)
                 (snd (Engine.unbind_slot "R1" 0 0 Sample.e0))
               = (Ok tt, snd (Engine.nio_delete 1%positive
                                (snd (Engine.unbind_slot "R1" 0 0 Sample.e0))))) by by_run.
  assert (H3 : handle Engine.model (Router_slot_remove_nio_binding "R1" 1 3) Sample.e0
               = (Raise NotFoundError, Sample.e0)) by by_run.
  assert (H4 : handle Engine.model (EthernetHub_remove_nio "H1" 0) Scenario.e_hub_bound
               = (Ok 5%positive, snd (Engine.unbind_slot "H1" 0 0 Scenario.e_hub_bound)))
    by by_run.
  assert (H5 : handle Engine.model (NIO_delete 5%positive)
                 (snd (Engine.unbind_slot "H1" 0 0 Scenario.e_hub_bound))
               = (Ok tt, snd (Engine.nio_delete 5%positive
                                (snd (Engine.unbind_slot "H1" 0 0 Scenario.e_hub_bound)))))
    by by_run.
  split; [|split].
  - exact (proj1 (@X5_delete_nio_unbinds_then_deletes Engine.model 0 0 "R1" [] _)
             _ _ H1 _ _ H2).
  - exact (proj1 (@X5_delete_nio_unbinds_then_deletes Engine.model 1 3 "R1" [] _)
             _ _ H3).
  - exact (proj2 (@X5_delete_nio_unbinds_then_deletes Engine.model 7 0 "H1" [] _)
             _ _ H4 _ _ H5).
Defined.

(** ** Packet capture *)

Section Captures.
Context {B : Backend} (R : Runtime).

(** X6.  When the router's [start_capture] returns, the [pcap_file_path] of
    its answer is the capture directory joined with the requested file name,
    this very path, with the request's adapter, port and link type, is what
    [node.start_capture] was called with, these are the only two calls
    made, and on a platform whose name starts with "win" the path is ASCII.
    When the capture directory cannot be read, the error comes out and
    [node.start_capture] is not called. *)
Theorem X6_start_capture_answer_is_started_path :
  forall (a p : Z) (nc : NodeCapture) (node : node_ref) (w : world B),
    (forall (j : value) (w' : world B),
        DynamipsNodes.start_capture R a p nc node w = (Ok j, w') ->
        exists d : string,
          fst (handle B (Project_capture_working_directory node) (backend w)) = Ok d /\
          j = VDict [("pcap_file_path", VStr (os_path_join R d (capture_file_name nc)))] /\
          calls w'
          = calls w ++ [Called (Project_capture_working_directory node);
                        Called (Router_start_capture node a p
                                  (os_path_join R d (capture_file_name nc))
                                  (data_link_type nc))] /\
          (startswith "win" (sys_platform R) = true ->
           is_ascii (os_path_join R d (capture_file_name nc)) = true)) /\
    (forall (x : exn) (s1 : bstate B),
        handle B (Project_capture_working_directory node) (backend w) = (Raise x, s1) ->
        DynamipsNodes.start_capture R a p nc node w
        = (Raise x, World (calls w ++ [Called (Project_capture_working_directory node)]) s1)).
Proof.
  intros a p nc node [t s]. cbn [backend calls]. split.
  - intros j w' Hrun.
    destruct (handle B (Project_capture_working_directory node) s) as [[d|x] s1] eqn:Hd.
    + destruct (handle B (Router_start_capture node a p
                            (os_path_join R d (capture_file_name nc)) (data_link_type nc)) s1)
        as [r s2] eqn:Hc.
      rewrite (start_capture_run R a p nc node t s s1 s2 d r Hd Hc) in Hrun.
      exists d. split; [reflexivity|].
      assert (Hcheck : startswith "win" (sys_platform R)
                       && negb (is_ascii (os_path_join R d (capture_file_name nc))) = false).
      { destruct (startswith "win" (sys_platform R)
                  && negb (is_ascii (os_path_join R d (capture_file_name nc))));
          [discriminate Hrun | reflexivity]. }
      rewrite Hcheck in Hrun.
      destruct r as [u|x]; [|discriminate Hrun].
      inversion Hrun; subst j w'.
      split; [reflexivity|]. split; [reflexivity|].
      intros Hwin. rewrite Hwin in Hcheck. simpl in Hcheck.
      apply negb_false_iff in Hcheck. exact Hcheck.
    + unfold DynamipsNodes.start_capture in Hrun.
      rewrite (bind_raise _ _ _ _ _ (perform_as _ _ _ _ _ Hd)) in Hrun. discriminate Hrun.
  - intros x s1 Hd. unfold DynamipsNodes.start_capture.
    apply bind_raise. exact (perform_as _ _ _ _ _ Hd).
Qed.

(** X7.  The hub's [start_capture] has no platform check: on every
    platform, Windows included, and for every path, ASCII or not, it hands
    the capture directory joined with the file name to [node.start_capture]
    with the port and the link type, and answers with that path when the
    call returns and with the call's error when it raises. *)
Theorem X7_hub_start_capture_has_no_platform_check :
  forall (a p : Z) (nc : NodeCapture) (node : node_ref) (t : list event)
         (s s1 s2 : bstate B) (d : string) (r : result unit),
    handle B (Project_capture_working_directory node) s = (Ok d, s1) ->
    handle B (EthernetHub_start_capture node p
                (os_path_join R d (capture_file_name nc)) (data_link_type nc)) s1
    = (r, s2) ->
    EthernetHubNodes.start_capture R a p nc node (World t s)
    = (match r with
       | Ok _ => Ok (VDict [("pcap_file_path",
                             VStr (os_path_join R d (capture_file_name nc)))])
       | Raise x => Raise x
       end,
       World (t ++ [Called (Project_capture_working_directory node);
                    Called (EthernetHub_start_capture node p
                              (os_path_join R d (capture_file_name nc))
                              (data_link_type nc))]) s2).
Proof.
  intros a p nc node t s s1 s2 d r Hd Hc. unfold EthernetHubNodes.start_capture.
  rewrite (bind_ok _ _ _ _ _ (perform_as _ _ _ _ _ Hd)).
  unfold bind. rewrite (perform_as _ _ _ _ _ Hc), <- app_assoc.
  destruct r; reflexivity.
Qed.

(** X8.  When the router's [stream_pcap_file] returns, the media type of
    the response is application/vnd.tcpdump.pcap, and its stream is the one
    the manager gave for the NIO that [get_nio] returned for the requested
    slot and the project id that the node gave next; these three calls, in
    this order and each on the state the one before left, are the only ones
    made. *)
Theorem X8_stream_pcap_file_streams_bound_nio :
  forall (a p : Z) (node : node_ref) (w w' : world B) (resp : StreamingResponse),
    DynamipsNodes.stream_pcap_file a p node w = (Ok resp, w') ->
    media_type resp = "application/vnd.tcpdump.pcap" /\
    exists (nio : positive) (project_id : string) (s1 s2 : bstate B),
      handle B (Router_get_nio node a p) (backend w) = (Ok nio, s1) /\
      handle B (Node_project_id node) s1 = (Ok project_id, s2) /\
      handle B (Dynamips_stream_pcap_file nio project_id) s2 = (Ok (stream resp), backend w') /\
      calls w'
      = calls w ++ [Called (Router_get_nio node a p); Called (Node_project_id node);
                    Called (Dynamips_stream_pcap_file nio project_id)].
Proof.
  intros a p node w w' resp Hrun. unfold DynamipsNodes.stream_pcap_file in Hrun.
  apply bind_inv_ok in Hrun as (nio & w1 & H1 & Hrun).
  apply bind_inv_ok in Hrun as (pid & w2 & H2 & Hrun).
  apply bind_inv_ok in Hrun as (st & w3 & H3 & Hrun).
  apply perform_inv in H1 as [H1 L1], H2 as [H2 L2], H3 as [H3 L3].
  inversion Hrun; subst resp w3. simpl. split; [reflexivity|].
  exists nio, pid, (backend w1), (backend w2).
  split; [exact H1|]. split; [exact H2|]. split; [exact H3|].
  rewrite L3, L2, L1, <- !app_assoc. reflexivity.
Qed.

End Captures.

Lemma X6_witness_windows_ascii_capture :
  (exists d : string,
     d = "/tmp/captures" /\
     is_ascii (os_path_join Sample.win32 d "a.pcap") = true /\
     calls (snd (DynamipsNodes.start_capture Sample.win32 0 0 Scenario.ascii_capture_request
                   "R1" (Sample.initial Sample.e0)))
     = [Called (Project_capture_working_directory "R1");
        Called (Router_start_capture "R1" 0 0 (os_path_join Sample.win32 d "a.pcap")
                  (VStr "DLT_EN10MB"))]) /\
  DynamipsNodes.start_capture Sample.win32 0 0 Scenario.ascii_capture_request "R9"
    (Sample.initial Sample.e0)
  = (Raise NotFoundError,
     @World Engine.model [Called (Project_capture_working_directory "R9")] Sample.e0).
Proof.
  destruct (@X6_start_capture_answer_is_started_path Engine.model Sample.win32 0 0
              Scenario.ascii_capture_request "R1" (Sample.initial Sample.e0))
    as [Hok _].
  destruct (@X6_start_capture_answer_is_started_path Engine.model Sample.win32 0 0
              Scenario.ascii_capture_request "R9" (Sample.initial Sample.e0))
    as [_ Hmissing].
  split.
  - assert (Hrun :
      DynamipsNodes.start_capture Sample.win32 0 0 Scenario.ascii_capture_request "R1"
        (Sample.initial Sample.e0)
      = (Ok (VDict [("pcap_file_path",
                     VStr (os_path_join Sample.win32 "/tmp/captures" "a.pcap"))]),
         @World Engine.model
           [Called (Project_capture_working_directory "R1");
            Called (Router_start_capture "R1" 0 0
                      (os_path_join Sample.win32 "/tmp/captures" "a.pcap")
                      (VStr "DLT_EN10MB"))]
           (snd (Engine.start_capture "R1" 0 0
                   (os_path_join Sample.win32 "/tmp/captures" "a.pcap")
                   (VStr "DLT_EN10MB") Sample.e0)))) by by_world.
    destruct (Hok _ _ Hrun) as (d & Hd & _ & Hcalls & Hascii).
    assert (Hd' : d = "/tmp/captures") by (vm_compute in Hd; inversion Hd; reflexivity).
    exists d. split; [exact Hd'|]. split; [exact (Hascii eq_refl)|].
    rewrite Hrun. exact Hcalls.
  - apply (Hmissing NotFoundError Sample.e0). by_run.
Defined.

Lemma X7_witness_hub_captures_non_ascii_on_windows :
  fst (EthernetHubNodes.start_capture Sample.win32 0 0 Sample.capture_request "H1"
         (Sample.initial Scenario.e_hub_bound))
  = Ok (VDict [("pcap_file_path",
                VStr (os_path_join Sample.win32 "/tmp/captures" Sample.non_ascii_name))]) /\
  is_ascii (os_path_join Sample.win32 "/tmp/captures" Sample.non_ascii_name) = false.
Proof.
  assert (Hd : handle Engine.model (Project_capture_working_directory "H1")
                 Scenario.e_hub_bound = (Ok "/tmp/captures", Scenario.e_hub_bound)) by by_run.
  assert (Hc : handle Engine.model
                 (EthernetHub_start_capture "H1" 0
                    (os_path_join Sample.win32 "/tmp/captures"
                       (capture_file_name Sample.capture_request))
                    (data_link_type Sample.capture_request)) Scenario.e_hub_bound
               = (Ok tt,
                  snd (Engine.start_capture "H1" 0 0
                         (os_path_join Sample.win32 "/tmp/captures" Sample.non_ascii_name)
                         (VStr "DLT_EN10MB") Scenario.e_hub_bound))) by by_run.
  split; [|by_run].
  unfold Sample.initial.
  rewrite (@X7_hub_start_capture_has_no_platform_check Engine.model Sample.win32 0 0
             Sample.capture_request "H1" [] _ _ _ _ _ Hd Hc).
  reflexivity.
Defined.

Lemma X8_witness_stream_of_captured_slot :
  exists (resp : StreamingResponse) (w' : world Engine.model),
    DynamipsNodes.stream_pcap_file 0 0 "R1" (Sample.initial Scenario.e_capturing)
    = (Ok resp, w') /\
    media_type resp = "application/vnd.tcpdump.pcap" /\
    handle Engine.model (Router_get_nio "R1" 0 0) Scenario.e_capturing
    = (Ok 1%positive, Scenario.e_capturing) /\
    handle Engine.model (Node_project_id "R1") Scenario.e_capturing
    = (Ok "P1", Scenario.e_capturing) /\
    calls w' = [Called (Router_get_nio "R1" 0 0); Called (Node_project_id "R1");
                Called (Dynamips_stream_pcap_file 1%positive "P1")].
Proof.
  assert (Hrun :
    DynamipsNodes.stream_pcap_file 0 0 "R1" (Sample.initial Scenario.e_capturing)
    = (Ok {| stream := EmptyString; media_type := "application/vnd.tcpdump.pcap" |},
       @World Engine.model
         [Called (Router_get_nio "R1" 0 0); Called (Node_project_id "R1");
          Called (Dynamips_stream_pcap_file 1%positive "P1")] Scenario.e_capturing))
    by by_world.
  destruct (@X8_stream_pcap_file_streams_bound_nio Engine.model 0 0 "R1" _ _ _ Hrun)
    as (Hmedia & nio & pid & s1 & s2 & Hnio & Hpid & _ & _).
  assert (Hn : handle Engine.model (Router_get_nio "R1" 0 0) Scenario.e_capturing
               = (Ok 1%positive, Scenario.e_capturing)) by by_run.
  assert (Hp : handle Engine.model (Node_project_id "R1") Scenario.e_capturing
               = (Ok "P1", Scenario.e_capturing)) by by_run.
  eexists _, _. split; [exact Hrun|]. split; [exact Hmedia|].
  split; [exact Hn|]. split; [exact Hp | reflexivity].
Defined.

(** ** Ethernet hub: creation and node resolution *)

Section HubCreation.
Context {B : Backend}.

Lemma create_ethernet_hub_run (project_id : string) (d : EthernetHubCreate) (w : world B) :
  EthernetHubNodes.create_ethernet_hub project_id d w
  = bind (perform (Dynamips_create_node (VStr (ehc_name d)) project_id
                     (default VNone (ehc_optional d !! "node_id"))
                     (<["node_type" := VStr "ethernet_hub"]>
                        (<["ports" := default VNone (ehc_optional d !! "ports_mapping")]> ∅))))
      (fun node => perform (Node_json node)) w.
Proof.
  unfold EthernetHubNodes.create_ethernet_hub.
  assert (Hpop : pop (encode_EthernetHubCreate d) "name"
                 = Ok (VStr (ehc_name d), delete "name" (encode_EthernetHubCreate d))).
  { unfold pop, encode_EthernetHubCreate. rewrite lookup_insert_eq. reflexivity. }
  rewrite Hpop. unfold bind at 1, lift_result. simpl. unfold get.
  assert (Hk : forall k, k <> "name" ->
            delete "name" (encode_EthernetHubCreate d) !! k = ehc_optional d !! k).
  { intros k Hk. unfold encode_EthernetHubCreate.
    rewrite lookup_delete_ne by congruence. apply lookup_insert_ne. congruence. }
  rewrite !Hk by discriminate. reflexivity.
Qed.

(** X9.  [create_ethernet_hub] reads three things of the request: the name,
    the [node_id] and the [ports_mapping].  Two requests that agree on these
    give the same response and leave the same world, whatever else they set.
    Its first call is [create_node] with the request's name, project and
    [node_id] ([None] when unset) and two keywords, [node_type]
    "ethernet_hub" and [ports], the request's [ports_mapping] ([None] when
    unset).  When that call raises, the error comes out as it is; when it
    returns a node, the answer is the JSON of that very node, or the error of
    asking for it; no settings are handed on and no other call is made. *)
Theorem X9_create_ethernet_hub_reads_three_fields :
  forall (project_id : string) (d d' : EthernetHubCreate) (w : world B),
    ehc_name d = ehc_name d' ->
    ehc_optional d !! "node_id" = ehc_optional d' !! "node_id" ->
    ehc_optional d !! "ports_mapping" = ehc_optional d' !! "ports_mapping" ->
    EthernetHubNodes.create_ethernet_hub project_id d w
    = EthernetHubNodes.create_ethernet_hub project_id d' w
    /\ forall (r1 : result node_ref) (s1 : bstate B),
         let create_call :=
           Dynamips_create_node (VStr (ehc_name d)) project_id
             (default VNone (ehc_optional d !! "node_id"))
             (<["node_type" := VStr "ethernet_hub"]>
                (<["ports" := default VNone (ehc_optional d !! "ports_mapping")]> ∅)) in
         handle B create_call (backend w) = (r1, s1) ->
         match r1 with
         | Ok node =>
             forall (r2 : result value) (s2 : bstate B),
               handle B (Node_json node) s1 = (r2, s2) ->
               EthernetHubNodes.create_ethernet_hub project_id d w
               = (r2, World (calls w ++ [Called create_call; Called (Node_json node)]) s2)
         | Raise x =>
             EthernetHubNodes.create_ethernet_hub project_id d w
             = (Raise x, World (calls w ++ [Called create_call]) s1)
         end.
Proof.
  intros project_id d d' w Hname Hid Hports. split.
  - rewrite !create_ethernet_hub_run, Hname, Hid, Hports. reflexivity.
  - intros r1 s1 create_call Hc. rewrite create_ethernet_hub_run. fold create_call.
    destruct w as [t s]. cbn [backend calls] in *.
    unfold bind. rewrite (perform_as _ _ _ _ _ Hc).
    destruct r1 as [node|x]; [|reflexivity].
    intros r2 s2 Hj. rewrite (perform_as _ _ _ _ _ Hj), <- app_assoc. reflexivity.
Qed.

(** X10.  A request to start, stop or suspend a hub resolves the node
    first, with [get_node] on the node id and the project id, and makes no
    other call.  When the node is found the answer is 204 and the state is
    the one [get_node] left; when [get_node] raises, for a missing node or
    project, the request fails with that error: the no-op does not turn a
    missing hub into a success. *)
Theorem X10_hub_noop_requests_resolve_the_node :
  forall (project_id node_id : string) (t : list event) (s s1 : bstate B)
         (r : result node_ref),
    handle B (Dynamips_get_node node_id project_id) s = (r, s1) ->
    let outcome (o : operation) (h : node_ref -> M B unit) :=
      (fst (Requests.hub_request h project_id node_id (World t s)),
       respond EthernetHubNodes.routes o
         (fst (Requests.hub_request h project_id node_id (World t s))),
       snd (Requests.hub_request h project_id node_id (World t s))) in
    let expected :=
      (match r with Ok _ => Ok tt | Raise x => Raise x end,
       match r with Ok _ => Some 204 | Raise _ => None end,
       World (t ++ [Called (Dynamips_get_node node_id project_id)]) s1) in
    outcome OpStart EthernetHubNodes.start_ethernet_hub = expected /\
    outcome OpStop EthernetHubNodes.stop_ethernet_hub = expected /\
    outcome OpSuspend EthernetHubNodes.suspend_ethernet_hub = expected.
Proof.
  intros project_id node_id t s s1 r Hget outcome expected.
  unfold outcome, expected, Requests.hub_request, EthernetHubNodes.dep_node, bind.
  rewrite (perform_as _ _ _ _ _ Hget).
  destruct r as [node|x]; repeat apply conj; reflexivity.
Qed.

End HubCreation.

Lemma X9_witness_console_field_is_dropped :
  EthernetHubNodes.create_ethernet_hub "P1" (Scenario.hub_create None)
    (Sample.initial Sample.e0)
  = EthernetHubNodes.create_ethernet_hub "P1" (Scenario.hub_create (Some 5000))
      (Sample.initial Sample.e0)
  /\ (exists (j : value) (e2 : Engine.engine),
        EthernetHubNodes.create_ethernet_hub "P1" (Scenario.hub_create (Some 5000))
          (Sample.initial Sample.e0)
        = (Ok j,
           @World Engine.model
             [Called (Dynamips_create_node (VStr "H2") "P1" (VStr "h2")
                        (<["node_type" := VStr "ethernet_hub"]> (<["ports" := VNone]> ∅)));
              Called (Node_json "h2")] e2) /\
        Engine.state_of e2 "h2" = Some Engine.DEFINED)
  /\ EthernetHubNodes.create_ethernet_hub "P1" Scenario.hub_taken (Sample.initial Sample.e0)
     = (Raise ConflictError,
        @World Engine.model
          [Called (Dynamips_create_node (VStr "H1") "P1" (VStr "H1")
                     (<["node_type" := VStr "ethernet_hub"]> (<["ports" := VNone]> ∅)))]
          Sample.e0).
Proof.
  destruct (@X9_create_ethernet_hub_reads_three_fields Engine.model "P1"
              (Scenario.hub_create None) (Scenario.hub_create (Some 5000))
              (Sample.initial Sample.e0)) as [Hsame _]; [by_run | by_run | by_run |].
  destruct (@X9_create_ethernet_hub_reads_three_fields Engine.model "P1"
              (Scenario.hub_create (Some 5000)) (Scenario.hub_create (Some 5000))
              (Sample.initial Sample.e0) eq_refl eq_refl eq_refl) as [_ Hrun].
  destruct (@X9_create_ethernet_hub_reads_three_fields Engine.model "P1"
              Scenario.hub_taken Scenario.hub_taken
              (Sample.initial Sample.e0) eq_refl eq_refl eq_refl) as [_ Htaken].
  set (e1 := snd (Engine.create (VStr "H2") "P1" (VStr "h2")
                    (<["node_type" := VStr "ethernet_hub"]> (<["ports" := VNone]> ∅))
                    Sample.e0)).
  set (j0 := match fst (Engine.node_json "h2" e1) with
             | Ok j => j
             | Raise _ => VNone
             end).
  split; [exact Hsame|]. split.
  - exists j0, e1. split; [|by_run].
    apply (Hrun (Ok "h2") e1); by_run.
  - apply (Htaken (Raise ConflictError) Sample.e0). by_run.
Defined.

Lemma X10_witness_found_and_missing_hub :
  fst (Requests.hub_request EthernetHubNodes.start_ethernet_hub "P1" "H1"
         (Sample.initial Sample.e0)) = Ok tt /\
  Requests.hub_request EthernetHubNodes.start_ethernet_hub "P1" "H9"
    (Sample.initial Sample.e0)
  = (Raise NotFoundError,
     @World Engine.model [Called (Dynamips_get_node "H9" "P1")] Sample.e0).
Proof.
  assert (H1 : handle Engine.model (Dynamips_get_node "H1" "P1") Sample.e0
               = (Ok "H1", Sample.e0)) by by_run.
  assert (H9 : handle Engine.model (Dynamips_get_node "H9" "P1") Sample.e0
               = (Raise NotFoundError, Sample.e0)) by by_run.
  destruct (@X10_hub_noop_requests_resolve_the_node Engine.model "P1" "H1" [] _ _ _ H1)
    as (Hstart & _).
  destruct (@X10_hub_noop_requests_resolve_the_node Engine.model "P1" "H9" [] _ _ _ H9)
    as (Hmissing & _).
  split.
  - exact (f_equal (fun x => fst (fst x)) Hstart).
  - apply run_is.
    + exact (f_equal (fun x => fst (fst x)) Hmissing).
    + exact (f_equal (fun x => calls (snd x)) Hmissing).
    + exact (f_equal (fun x => backend (snd x)) Hmissing).
Defined.

(** ** Dynamips router: update *)

(** X11.  [update_router] applies the settings, then marks the node as
    updated, then answers with its JSON, and stops at the first of the three
    that raises: when [update_vm_settings] raises, [node.updated()] is not
    called and the error comes out as it is. *)
Theorem X11_update_router_stops_at_first_error :
  forall (B : Backend) (node_data : dict) (node : node_ref) (t : list event)
         (s s1 s2 s3 : bstate B) (r1 r2 : result unit) (r3 : result value),
    handle B (Dynamips_update_vm_settings node node_data) s = (r1, s1) ->
    handle B (Node_updated node) s1 = (r2, s2) ->
    handle B (Node_json node) s2 = (r3, s3) ->
    DynamipsNodes.update_router node_data node (World t s)
    = match r1, r2 with
      | Raise x, _ =>
          (Raise x, World (t ++ [Called (Dynamips_update_vm_settings node node_data)]) s1)
      | Ok _, Raise x =>
          (Raise x, World (t ++ [Called (Dynamips_update_vm_settings node node_data);
                                 Called (Node_updated node)]) s2)
      | Ok _, Ok _ =>
          (r3, World (t ++ [Called (Dynamips_update_vm_settings node node_data);
                            Called (Node_updated node); Called (Node_json node)]) s3)
      end.
Proof.
  intros B node_data node t s s1 s2 s3 r1 r2 r3 H1 H2 H3.
  unfold DynamipsNodes.update_router, bind.
  rewrite (perform_as _ _ _ _ _ H1). destruct r1 as [u|x]; [|reflexivity].
  rewrite (perform_as _ _ _ _ _ H2). destruct r2 as [u'|x].
  - rewrite (perform_as _ _ _ _ _ H3), <- !app_assoc. reflexivity.
  - rewrite <- !app_assoc. reflexivity.
Qed.

Lemma X11_witness_update_of_missing_router :
  DynamipsNodes.update_router (<["idlepc" := VStr "0x0"]> ∅) "R9" (Sample.initial Sample.e0)
  = (Raise NotFoundError,
     @World Engine.model
       [Called (Dynamips_update_vm_settings "R9" (<["idlepc" := VStr "0x0"]> ∅))] Sample.e0).
Proof.
  assert (H1 : handle Engine.model
                 (Dynamips_update_vm_settings "R9" (<["idlepc" := VStr "0x0"]> ∅)) Sample.e0
               = (Raise NotFoundError, Sample.e0)) by by_run.
  assert (H2 : handle Engine.model (Node_updated "R9") Sample.e0
               = (Raise NotFoundError, Sample.e0)) by by_run.
  assert (H3 : handle Engine.model (Node_json "R9") Sample.e0
               = (Raise NotFoundError, Sample.e0)) by by_run.
  exact (X11_update_router_stops_at_first_error Engine.model _ "R9" [] _ _ _ _ _ _ _ H1 H2 H3).
Defined.

(** ** Ethernet hub: update *)

Section HubUpdate.
Import EthernetHubUpdate.
Context {H : HubBackend}.

Lemma hperform_run {X} (c : hub_call X) (t : list hub_event) (s : hstate H) :
  hperform c (HubWorld t s)
  = (fst (hub_handle H c s), HubWorld (t ++ [HubCalled c]) (snd (hub_handle H c s))).
Proof. unfold hperform; simpl. destruct (hub_handle H c s); reflexivity. Qed.

Lemma hperform_as {X} (c : hub_call X) (t : list hub_event) (s s' : hstate H)
    (r : result X) :
  hub_handle H c s = (r, s') ->
  hperform c (HubWorld t s) = (r, HubWorld (t ++ [HubCalled c]) s').
Proof. intros Hc. rewrite hperform_run, Hc. reflexivity. Qed.

(** The end of every update: [updated()], then the JSON. *)
Lemma update_tail_calls (node : node_ref) (t : list hub_event) (s : hstate H)
    (j : value) (w' : hub_world H) :
  hbind (hperform (Hub_updated node)) (fun _ => hperform (Hub_json node)) (HubWorld t s)
  = (Ok j, w') ->
  hub_calls w' = t ++ [HubCalled (Hub_updated node); HubCalled (Hub_json node)].
Proof.
  unfold hbind. rewrite hperform_run.
  destruct (hub_handle H (Hub_updated node) s) as [[u|x] s1]; cbn [fst snd];
    [|discriminate].
  rewrite hperform_run. intros Hrun. inversion Hrun. cbn [hub_calls].
  rewrite <- app_assoc. reflexivity.
Qed.

Lemma update_ports_calls (d : dict) (node : node_ref) (t : list hub_event)
    (s : hstate H) (j : value) (w' : hub_world H) :
  hbind
    (match d !! "ports_mapping" with
     | Some ports_mapping => hperform (Hub_set_ports_mapping node ports_mapping)
     | None => hret tt
     end)
    (fun _ => hbind (hperform (Hub_updated node)) (fun _ => hperform (Hub_json node)))
    (HubWorld t s)
  = (Ok j, w') ->
  hub_calls w'
  = t ++ match d !! "ports_mapping" with
         | Some ports_mapping => [HubCalled (Hub_set_ports_mapping node ports_mapping)]
         | None => []
         end
      ++ [HubCalled (Hub_updated node); HubCalled (Hub_json node)].
Proof.
  unfold hbind at 1. destruct (d !! "ports_mapping") as [pm|].
  - rewrite hperform_run.
    destruct (hub_handle H (Hub_set_ports_mapping node pm) s) as [[u|x] s1];
      cbn [fst snd]; [|discriminate].
    intros Hrun. rewrite (update_tail_calls _ _ _ _ _ Hrun), <- app_assoc. reflexivity.
  - unfold hret. intros Hrun. exact (update_tail_calls _ _ _ _ _ Hrun).
Qed.

(** X12.  When [update_ethernet_hub] returns, the calls it has made are, in
    this order: the read of the hub's name, only if the request has a name;
    [set_name] with the requested name, only if that name differs from the
    hub's (a request with the name the hub already has renames nothing; a
    name set to null differs from every name); the assignment of
    [ports_mapping], only if the request has one; [updated()]; [__json__()].
    A request with neither field makes the last two calls only. *)
Theorem X12_update_ethernet_hub_calls :
  forall (d : dict) (node : node_ref) (w w' : hub_world H) (j : value),
    update_ethernet_hub d node w = (Ok j, w') ->
    exists current : string,
      (forall name : value,
          d !! "name" = Some name ->
          fst (hub_handle H (Hub_name node) (hub_state w)) = Ok current) /\
      hub_calls w' = hub_calls w ++ expected_calls d node current.
Proof.
  intros d node [t s] w' j Hrun. cbn [hub_calls hub_state].
  unfold update_ethernet_hub in Hrun. unfold hbind at 1 in Hrun.
  unfold expected_calls.
  destruct (d !! "name") as [name|].
  - unfold hbind at 1 in Hrun. rewrite hperform_run in Hrun.
    destruct (hub_handle H (Hub_name node) s) as [[current|x] s1]; cbn [fst snd] in Hrun;
      [|discriminate].
    exists current. split; [intros name' _; reflexivity|].
    destruct (str_ne current name).
    + rewrite hperform_run in Hrun.
      destruct (hub_handle H (Hub_set_name node name) s1) as [[u|x] s2];
        cbn [fst snd] in Hrun; [|discriminate].
      rewrite (update_ports_calls _ _ _ _ _ _ Hrun).
      rewrite <- !app_assoc. reflexivity.
    + unfold hret in Hrun.
      rewrite (update_ports_calls _ _ _ _ _ _ Hrun).
      rewrite <- !app_assoc. reflexivity.
  - exists EmptyString. split; [intros name' Hn; discriminate Hn|].
    unfold hret in Hrun. exact (update_ports_calls _ _ _ _ _ _ Hrun).
Qed.

(** X13.  [update_ethernet_hub] stops at the first call that raises and
    undoes nothing.  When [set_name] raises, the ports mapping is not
    assigned and [updated()] is not called.  When the rename has gone
    through and the assignment of the ports mapping raises, the error comes
    out with the hub already renamed, and [updated()] is not called. *)
Theorem X13_update_ethernet_hub_stops_at_first_error :
  forall (d : dict) (node : node_ref) (t : list hub_event) (s s1 : hstate H)
         (name : value) (current : string),
    d !! "name" = Some name ->
    hub_handle H (Hub_name node) s = (Ok current, s1) ->
    str_ne current name = true ->
    (forall (x : exn) (s2 : hstate H),
        hub_handle H (Hub_set_name node name) s1 = (Raise x, s2) ->
        update_ethernet_hub d node (HubWorld t s)
        = (Raise x,
           HubWorld (t ++ [HubCalled (Hub_name node); HubCalled (Hub_set_name node name)])
             s2)) /\
    (forall (u : unit) (s2 s3 : hstate H) (ports_mapping : value) (x : exn),
        hub_handle H (Hub_set_name node name) s1 = (Ok u, s2) ->
        d !! "ports_mapping" = Some ports_mapping ->
        hub_handle H (Hub_set_ports_mapping node ports_mapping) s2 = (Raise x, s3) ->
        update_ethernet_hub d node (HubWorld t s)
        = (Raise x,
           HubWorld (t ++ [HubCalled (Hub_name node); HubCalled (Hub_set_name node name);
                           HubCalled (Hub_set_ports_mapping node ports_mapping)]) s3)).
Proof.
  intros d node t s s1 name current Hname Hread Hne. split.
  - intros x s2 Hset. unfold update_ethernet_hub. rewrite Hname.
    unfold hbind. rewrite (hperform_as _ _ _ _ _ Hread), Hne.
    rewrite (hperform_as _ _ _ _ _ Hset), <- app_assoc. reflexivity.
  - intros u s2 s3 pm x Hset Hpm Hports. unfold update_ethernet_hub. rewrite Hname, Hpm.
    unfold hbind. rewrite (hperform_as _ _ _ _ _ Hread), Hne.
    rewrite (hperform_as _ _ _ _ _ Hset), (hperform_as _ _ _ _ _ Hports).
    rewrite <- !app_assoc. reflexivity.
Qed.

End HubUpdate.

(** The hub is called Hub1 and the request names it Hub1 again, with a new
    ports mapping: no rename, one assignment, one notification. *)
Lemma X12_witness_same_name_new_ports :
  exists (j : value) (w' : EthernetHubUpdate.hub_world EthernetHubUpdate.simple),
    EthernetHubUpdate.update_ethernet_hub
      (<["name" := VStr "Hub1"]> (<["ports_mapping" := VList [VInt 1; VInt 2]]> ∅)) "H1"
      (@EthernetHubUpdate.HubWorld EthernetHubUpdate.simple [] EthernetHubUpdate.hub0)
    = (Ok j, w') /\
    EthernetHubUpdate.hub_calls w'
    = [EthernetHubUpdate.HubCalled (EthernetHubUpdate.Hub_name "H1");
       EthernetHubUpdate.HubCalled
         (EthernetHubUpdate.Hub_set_ports_mapping "H1" (VList [VInt 1; VInt 2]));
       EthernetHubUpdate.HubCalled (EthernetHubUpdate.Hub_updated "H1");
       EthernetHubUpdate.HubCalled (EthernetHubUpdate.Hub_json "H1")] /\
    EthernetHubUpdate.hub_state w'
    = EthernetHubUpdate.SimpleHub "Hub1" (VList [VInt 1; VInt 2]) 1.
Proof.
  set (d := <["name" := VStr "Hub1"]> (<["ports_mapping" := VList [VInt 1; VInt 2]]> ∅) : dict).
  destruct (EthernetHubUpdate.update_ethernet_hub d "H1"
              (@EthernetHubUpdate.HubWorld EthernetHubUpdate.simple [] EthernetHubUpdate.hub0))
    as [r w'] eqn:Hrun.
  assert (Hr : r = Ok (VDict [("name", VStr "Hub1");
                              ("ports_mapping", VList [VInt 1; VInt 2])])).
  { change r with (fst (r, w')). rewrite <- Hrun. by_run. }
  subst r.
  destruct (@X12_update_ethernet_hub_calls EthernetHubUpdate.simple d "H1" _ _ _ Hrun)
    as (current & Hcur & Hcalls).
  assert (Hc : current = "Hub1").
  { specialize (Hcur (VStr "Hub1") eq_refl). vm_compute in Hcur.
    inversion Hcur. reflexivity. }
  subst current.
  eexists _, w'. split; [reflexivity|]. split.
  - rewrite Hcalls. by_run.
  - change w' with (snd (Ok (VDict [("name", VStr "Hub1");
                                    ("ports_mapping", VList [VInt 1; VInt 2])]), w')).
    rewrite <- Hrun. by_run.
Defined.

(** A name set to null is handed to [set_name], which refuses it: the ports
    mapping of the request is not assigned.  A good name with a ports
    mapping that is refused: the hub is renamed all the same. *)
Lemma X13_witness_refused_name_and_refused_ports :
  EthernetHubUpdate.update_ethernet_hub
    (<["name" := VNone]> (<["ports_mapping" := VList []]> ∅)) "H1"
    (@EthernetHubUpdate.HubWorld EthernetHubUpdate.simple [] EthernetHubUpdate.hub0)
  = (Raise ValidationError,
     @EthernetHubUpdate.HubWorld EthernetHubUpdate.simple
       [EthernetHubUpdate.HubCalled (EthernetHubUpdate.Hub_name "H1");
        EthernetHubUpdate.HubCalled (EthernetHubUpdate.Hub_set_name "H1" VNone)]
       EthernetHubUpdate.hub0)
  /\ EthernetHubUpdate.update_ethernet_hub
       (<["name" := VStr "Hub2"]> (<["ports_mapping" := VInt 8]> ∅)) "H1"
       (@EthernetHubUpdate.HubWorld EthernetHubUpdate.simple [] EthernetHubUpdate.hub0)
     = (Raise ValidationError,
        @EthernetHubUpdate.HubWorld EthernetHubUpdate.simple
          [EthernetHubUpdate.HubCalled (EthernetHubUpdate.Hub_name "H1");
           EthernetHubUpdate.HubCalled (EthernetHubUpdate.Hub_set_name "H1" (VStr "Hub2"));
           EthernetHubUpdate.HubCalled (EthernetHubUpdate.Hub_set_ports_mapping "H1" (VInt 8))]
          (EthernetHubUpdate.SimpleHub "Hub2" (VList []) 0)).
Proof.
  split.
  - destruct (@X13_update_ethernet_hub_stops_at_first_error EthernetHubUpdate.simple
                (<["name" := VNone]> (<["ports_mapping" := VList []]> ∅)) "H1" []
                EthernetHubUpdate.hub0 EthernetHubUpdate.hub0 VNone "Hub1")
      as [Hname _]; [by_run | by_run | by_run |].
    apply Hname. by_run.
  - destruct (@X13_update_ethernet_hub_stops_at_first_error EthernetHubUpdate.simple
                (<["name" := VStr "Hub2"]> (<["ports_mapping" := VInt 8]> ∅)) "H1" []
                EthernetHubUpdate.hub0 EthernetHubUpdate.hub0 (VStr "Hub2") "Hub1")
      as [_ Hports]; [by_run | by_run | by_run |].
    apply (Hports tt (EthernetHubUpdate.SimpleHub "Hub2" (VList []) 0)); by_run.
Defined.

(** ** Status codes of the responses *)

Section StatusCodes.





End StatusCodes.

